(** * logtar handlers (handler.go): a shallow embedding and its properties

    The Go package [logtar] routes log records to handlers.  Its file
    handler.go declares the [Handler] interface and three implementations,
    [NullHandler], [StreamHandler] and [FileHandler].

    The embedding follows the code line by line.  A Go function becomes a
    program in a small resumption monad [Prog] whose atomic operations are
    the calls the code makes into the runtime and the standard library
    (variable allocation, [sync.Mutex], [fmt.Fprintf], [os.OpenFile], the
    formatter).  One definition of each method then serves two semantics:
    [run], which executes a program to completion in one goroutine, and
    [run_schedule], which interleaves the atomic operations of
    several goroutines. *)

From Stdlib Require Import ZArith String Ascii List Bool Lia.
From stdpp Require Import base option list strings.

Import ListNotations.
Local Open Scope string_scope.
Local Open Scope list_scope.

(** ** Values *)

(** Addresses of heap objects.  Every kind of object has its own store in
    the [World]; an address is an index in that store. *)
Definition loc := nat.

(** A Go pointer: [None] is [nil]. *)
Definition pointer := option loc.

(** A Go [error]: [None] is [nil], [Some s] an error whose [Error()] text
    is [s]. *)
Definition error := option string.

(** Goroutine identifiers. *)
Definition tid := nat.

Definition newline : string := String (ascii_of_nat 10) EmptyString.

(** Modelled from the spec: the struct LogRecord is declared outside
    handler.go.  The handlers read one field of it, [record.Level], and
    compare it with their own [Level int]; the record carries in addition
    whatever the formatter needs, kept here as one text field.  Go's [int]
    is a signed machine integer; the code only compares levels, so their
    order is that of [Z]. *)
Record LogRecord := {
  Level : Z;
  Text : string
}.

(** Modelled from the spec: the interface Formatter, with its one method
    [Format(record) -> (string, error)], and the package variables
    [TerminalFormatter] and [DefaultFormatter] are declared outside
    handler.go.  A formatter value is the nil interface, one of the two
    package variables, or any other implementation, given by its [Format]
    function.  [Format] reads the record and returns a text and an error;
    it does not write the record. *)
Inductive Formatter :=
| NilFormatter
| TerminalFormatter
| DefaultFormatter
| FormatterFunc (format : LogRecord -> string * error).

(** An [io.Writer].  The implementations the model provides are the nil
    interface, an [*os.File], and an in-memory buffer in the manner of
    [*bytes.Buffer], given by its address. *)
Inductive Writer :=
| NilWriter
| FileWriter (f : pointer)
| BufferWriter (b : loc).

(** [sync.Mutex].  It is a struct held by value: assigning or passing a
    struct that contains one copies the state of the lock. *)
Record Mutex := { held : bool }.

Definition unlocked : Mutex := {| held := false |}.

Record NullHandler := {
  nh_Name : string
}.

Record StreamHandler := {
  sh_Out : Writer;
  sh_Formatter : Formatter;
  sh_Name : string;
  sh_Level : Z;
  sh_mu : Mutex
}.

Record FileHandler := {
  fh_Path : string;
  fh_Out : pointer;
  fh_Name : string;
  fh_Level : Z;
  fh_Formatter : Formatter;
  fh_mu : Mutex
}.

Definition sh_with_mu (s : StreamHandler) (m : Mutex) : StreamHandler :=
  {| sh_Out := sh_Out s; sh_Formatter := sh_Formatter s; sh_Name := sh_Name s;
     sh_Level := sh_Level s; sh_mu := m |}.

Definition fh_with_mu (f : FileHandler) (m : Mutex) : FileHandler :=
  {| fh_Path := fh_Path f; fh_Out := fh_Out f; fh_Name := fh_Name f;
     fh_Level := fh_Level f; fh_Formatter := fh_Formatter f; fh_mu := m |}.

(** The address of a mutex: the field [mu] of the StreamHandler variable,
    or of the FileHandler variable, at the given address. *)
Inductive MutexAddr :=
| MuStream (l : loc)
| MuFile (l : loc).

(** ** The operating system *)

(** Flags of [os.OpenFile] (the values of package [syscall] on Linux) and
    the bits of a [FileMode] permission. *)
Definition O_RDONLY : Z := 0.
Definition O_WRONLY : Z := 1.
Definition O_RDWR : Z := 2.
Definition O_CREATE : Z := 64.
Definition O_EXCL : Z := 128.
Definition O_TRUNC : Z := 512.
Definition O_APPEND : Z := 1024.
Definition O_ACCMODE : Z := 3.

(** An octal literal, most significant digit first: Go's [0660] is
    [octal [6; 6; 0]]. *)
Definition octal (digits : list Z) : Z :=
  fold_left (fun acc d => acc * 8 + d)%Z digits 0%Z.

(** An [os.File] object: how it was opened, whether it has been closed, and
    the bytes written through it so far. *)
Record File := {
  f_name : string;
  f_flag : Z;
  f_perm : Z;
  f_closed : bool;
  f_written : string
}.

Definition f_with_written (f : File) (s : string) : File :=
  {| f_name := f_name f; f_flag := f_flag f; f_perm := f_perm f;
     f_closed := f_closed f; f_written := s |}.

Definition f_with_closed (f : File) (c : bool) : File :=
  {| f_name := f_name f; f_flag := f_flag f; f_perm := f_perm f;
     f_closed := c; f_written := f_written f |}.

Definition writable (f : File) : bool :=
  negb (f_closed f) && negb (Z.land (f_flag f) O_ACCMODE =? O_RDONLY)%Z.

(** [os.Stdin], [os.Stdout] and [os.Stderr] are the file objects of the
    descriptors 0, 1 and 2. *)
Definition os_Stdin : pointer := Some 0.
Definition os_Stdout : pointer := Some 1.
Definition os_Stderr : pointer := Some 2.

Definition ErrInvalid : string := "invalid argument".
Definition ErrClosed : string := "file already closed".
Definition EBADF : string := "bad file descriptor".
Definition nil_dereference : string :=
  "runtime error: invalid memory address or nil pointer dereference".
Definition unlock_of_unlocked : string :=
  "fatal error: sync: unlock of unlocked mutex".

(** ** Observable events *)

Inductive Event :=
| EvFormat (f : Formatter) (record : pointer)
| EvFprintf (w : Writer) (text : string)
| EvFprintln (w : Writer) (a : string)
| EvLock (m : MutexAddr)
| EvUnlock (m : MutexAddr)
| EvOpenFile (name : string) (flag perm : Z)
| EvClose (f : pointer).

(** ** The world *)

(** Everything the goroutines share: the heap, one store per kind of
    object; the open files; the file system's verdicts, which the program
    does not control ([fs_open name flag perm] is the error with which the
    system refuses to open, [fs_close name] the one it reports on closing);
    and the events so far, each with the goroutine that caused it. *)
Record World := {
  records : list LogRecord;
  stream_vars : list StreamHandler;
  file_vars : list FileHandler;
  buffers : list string;
  os_files : list File;
  fs_open : string -> Z -> Z -> error;
  fs_close : string -> error;
  trace : list (tid * Event)
}.

Definition with_stream_vars (w : World) (v : list StreamHandler) : World :=
  {| records := records w; stream_vars := v; file_vars := file_vars w;
     buffers := buffers w; os_files := os_files w; fs_open := fs_open w;
     fs_close := fs_close w; trace := trace w |}.

Definition with_file_vars (w : World) (v : list FileHandler) : World :=
  {| records := records w; stream_vars := stream_vars w; file_vars := v;
     buffers := buffers w; os_files := os_files w; fs_open := fs_open w;
     fs_close := fs_close w; trace := trace w |}.

Definition with_buffers (w : World) (v : list string) : World :=
  {| records := records w; stream_vars := stream_vars w;
     file_vars := file_vars w; buffers := v; os_files := os_files w;
     fs_open := fs_open w; fs_close := fs_close w; trace := trace w |}.

Definition with_os_files (w : World) (v : list File) : World :=
  {| records := records w; stream_vars := stream_vars w;
     file_vars := file_vars w; buffers := buffers w; os_files := v;
     fs_open := fs_open w; fs_close := fs_close w; trace := trace w |}.

Definition with_trace (w : World) (v : list (tid * Event)) : World :=
  {| records := records w; stream_vars := stream_vars w;
     file_vars := file_vars w; buffers := buffers w; os_files := os_files w;
     fs_open := fs_open w; fs_close := fs_close w; trace := v |}.

Definition log (t : tid) (e : Event) (w : World) : World :=
  with_trace w (trace w ++ [(t, e)]).

(** ** Formatting verbs *)

(** [fmt.Sprintf] for the two verbs the code uses, [%v] and [%s], applied
    to operands that are already text (a string, or the [Error()] text of
    an error). *)
Fixpoint fmt_Sprintf (format : string) (a : list string) : string :=
  match format with
  | EmptyString => EmptyString
  | String c rest =>
      if Ascii.eqb c "%" then
        match rest with
        | EmptyString => "%!(NOVERB)"
        | String v rest' =>
            if Ascii.eqb v "v" || Ascii.eqb v "s" then
              match a with
              | x :: a' => x +:+ fmt_Sprintf rest' a'
              | [] => "%!" +:+ String v "(MISSING)" +:+ fmt_Sprintf rest' []
              end
            else String c (String v (fmt_Sprintf rest' a))
        end
      else String c (fmt_Sprintf rest a)
  end.

(** ** Atomic operations *)

Inductive Op :=
| OpLoadRecord (p : pointer)
| OpNewStreamVar (s : StreamHandler)
| OpLoadStreamVar (p : pointer)
| OpNewFileVar (f : FileHandler)
| OpLoadFileVar (p : pointer)
| OpLock (m : MutexAddr)
| OpUnlock (m : MutexAddr)
| OpFormat (f : Formatter) (record : pointer)
| OpFprintf (w : Writer) (text : string)
| OpFprintln (w : Writer) (a : string)
| OpOpenFile (name : string) (flag perm : Z)
| OpCloseFile (f : pointer).

Inductive MutexResult := MuOk | MuNil | MuNotLocked.

(** What an operation hands back to the program. *)
Definition Res (o : Op) : Type :=
  match o with
  | OpLoadRecord _ => option LogRecord
  | OpNewStreamVar _ => loc
  | OpLoadStreamVar _ => option StreamHandler
  | OpNewFileVar _ => loc
  | OpLoadFileVar _ => option FileHandler
  | OpLock _ => MutexResult
  | OpUnlock _ => MutexResult
  | OpFormat _ _ => option (string * error)
  | OpFprintf _ _ => option error
  | OpFprintln _ _ => option error
  | OpOpenFile _ _ _ => (pointer * error)%type
  | OpCloseFile _ => error
  end.

Definition deref {A} (store : list A) (p : pointer) : option A :=
  match p with
  | None => None
  | Some l => store !! l
  end.

Definition mutex_at (w : World) (m : MutexAddr) : option Mutex :=
  match m with
  | MuStream l => sh_mu <$> stream_vars w !! l
  | MuFile l => fh_mu <$> file_vars w !! l
  end.

Definition set_mutex (w : World) (m : MutexAddr) (v : Mutex) : World :=
  match m with
  | MuStream l =>
      with_stream_vars w (alter (fun s => sh_with_mu s v) l (stream_vars w))
  | MuFile l =>
      with_file_vars w (alter (fun f => fh_with_mu f v) l (file_vars w))
  end.

Definition path_error (op name err : string) : string :=
  op +:+ " " +:+ name +:+ ": " +:+ err.

(** [w.Write(data)].  [None]: the call dereferences nil and panics.
    Otherwise the error that [Write] returns, and the world after it.  A
    nil [*os.File] and a closed or read-only file refuse the bytes and
    return an error. *)
Definition write_bytes (wr : Writer) (data : string) (w : World)
  : option (error * World) :=
  match wr with
  | NilWriter => None
  | FileWriter None => Some (Some ErrInvalid, w)
  | FileWriter (Some l) =>
      match os_files w !! l with
      | None => Some (Some ErrInvalid, w)
      | Some f =>
          if f_closed f then Some (Some (path_error "write" (f_name f) ErrClosed), w)
          else if (Z.land (f_flag f) O_ACCMODE =? O_RDONLY)%Z
          then Some (Some (path_error "write" (f_name f) EBADF), w)
          else Some (None,
                     with_os_files w
                       (<[l := f_with_written f (f_written f +:+ data)]> (os_files w)))
      end
  | BufferWriter b =>
      match buffers w !! b with
      | None => None
      | Some s => Some (None, with_buffers w (<[b := s +:+ data]> (buffers w)))
      end
  end.

Definition open_file (name : string) (flag perm : Z) (w : World)
  : (pointer * error) * World :=
  match fs_open w name flag perm with
  | Some e => ((None, Some (path_error "open" name e)), w)
  | None =>
      ((Some (length (os_files w)), None),
       with_os_files w
         (os_files w ++
            [{| f_name := name; f_flag := flag; f_perm := perm;
                f_closed := false; f_written := "" |}]))
  end.

Definition close_file (f : pointer) (w : World) : error * World :=
  match f with
  | None => (Some ErrInvalid, w)
  | Some l =>
      match os_files w !! l with
      | None => (Some ErrInvalid, w)
      | Some file =>
          if f_closed file
          then (Some (path_error "close" (f_name file) ErrClosed), w)
          else (fs_close w (f_name file),
                with_os_files w (<[l := f_with_closed file true]> (os_files w)))
      end
  end.

(** ** Programs *)

(** A program either returns, panics, or performs an atomic operation and
    continues with its result. *)
Inductive Prog (A : Type) : Type :=
| Ret (a : A)
| Panic (v : string)
| Vis (o : Op) (k : Res o -> Prog A).

Arguments Ret {A} a.
Arguments Panic {A} v.
Arguments Vis {A} o k.

Fixpoint bind {A B} (m : Prog A) (k : A -> Prog B) : Prog B :=
  match m with
  | Ret a => k a
  | Panic v => Panic v
  | Vis o c => Vis o (fun x => bind (c x) k)
  end.

Declare Scope prog_scope.
Delimit Scope prog_scope with prog.
Bind Scope prog_scope with Prog.

Notation "x <- m ;; k" := (bind m (fun x => k))
  (at level 100, m at next level, right associativity) : prog_scope.
Notation "m ;; k" := (bind m (fun _ => k))
  (at level 100, right associativity) : prog_scope.

Local Open Scope prog_scope.

(** [defer d] followed by [body]: [d] runs when [body] is left, by return
    or by panic, and a panic then goes on. *)
Fixpoint defer {A} (d : Prog unit) (body : Prog A) : Prog A :=
  match body with
  | Ret a => d ;; Ret a
  | Panic v => d ;; Panic v
  | Vis o k => Vis o (fun x => defer d (k x))
  end.

Inductive Outcome (A : Type) : Type :=
| Returned (a : A)
| Panicked (v : string)
| Blocked.

Arguments Returned {A} a.
Arguments Panicked {A} v.
Arguments Blocked {A}.

(** ** Runtime and library calls as programs *)

(** [*p] for a [*LogRecord]. *)
Definition deref_record (p : pointer) : Prog LogRecord :=
  Vis (OpLoadRecord p) (fun r =>
    match r with
    | Some r => Ret r
    | None => Panic nil_dereference
    end).

(** A new variable of type StreamHandler holding [s]; its address. *)
Definition var_StreamHandler (s : StreamHandler) : Prog loc :=
  Vis (OpNewStreamVar s) (fun l => Ret l).

(** [*p] for a [*StreamHandler]: a copy of the struct, mutex included. *)
Definition deref_StreamHandler (p : pointer) : Prog StreamHandler :=
  Vis (OpLoadStreamVar p) (fun r =>
    match r with
    | Some s => Ret s
    | None => Panic nil_dereference
    end).

Definition var_FileHandler (f : FileHandler) : Prog loc :=
  Vis (OpNewFileVar f) (fun l => Ret l).

Definition deref_FileHandler (p : pointer) : Prog FileHandler :=
  Vis (OpLoadFileVar p) (fun r =>
    match r with
    | Some f => Ret f
    | None => Panic nil_dereference
    end).

Definition mutex_result (r : MutexResult) : Prog unit :=
  match r with
  | MuOk => Ret tt
  | MuNil => Panic nil_dereference
  | MuNotLocked => Panic unlock_of_unlocked
  end.

(** [m.Lock()] and [m.Unlock()] for the mutex at address [m]. *)
Definition sync_Mutex_Lock (m : MutexAddr) : Prog unit :=
  Vis (OpLock m) mutex_result.

Definition sync_Mutex_Unlock (m : MutexAddr) : Prog unit :=
  Vis (OpUnlock m) mutex_result.

(** [f.Format(record)].  Calling a method of the nil interface panics; a
    formatter reads the record it is given, so that a nil record panics
    inside it. *)
Definition Formatter_Format (f : Formatter) (record : pointer)
  : Prog (string * error) :=
  Vis (OpFormat f record) (fun r =>
    match r with
    | Some res => Ret res
    | None => Panic nil_dereference
    end).

(** [fmt.Fprintf(w, format, a...)] and [fmt.Fprintln(w, a)] build the text
    and hand it to [w.Write] in one call.  The code drops what they
    return. *)
Definition fmt_Fprintf (w : Writer) (format : string) (a : list string)
  : Prog unit :=
  Vis (OpFprintf w (fmt_Sprintf format a)) (fun r =>
    match r with
    | Some _ => Ret tt
    | None => Panic nil_dereference
    end).

Definition fmt_Fprintln (w : Writer) (a : string) : Prog unit :=
  Vis (OpFprintln w a) (fun r =>
    match r with
    | Some _ => Ret tt
    | None => Panic nil_dereference
    end).

Definition os_OpenFile (name : string) (flag perm : Z)
  : Prog (pointer * error) :=
  Vis (OpOpenFile name flag perm) (fun r => Ret r).

Definition os_File_Close (f : pointer) : Prog error :=
  Vis (OpCloseFile f) (fun e => Ret e).

(** ** handler.go *)

(** *** NullHandler *)

Definition NullHandler_Handle (self : NullHandler) (record : pointer)
  : Prog unit :=
  Ret tt.

Definition NullHandler_Filter (self : NullHandler) (record : pointer)
  : Prog bool :=
  Ret true.

Definition NullHandler_Emit (self : NullHandler) (record : pointer)
  : Prog unit :=
  Ret tt.

Definition NullHandler_Close (self : NullHandler) : Prog error :=
  Ret None.

(** *** StreamHandler *)

Definition NewStreamHandler (name : string) : Prog pointer :=
  h <- var_StreamHandler
         {| sh_Name := name;
            sh_Out := FileWriter os_Stderr;
            sh_Formatter := TerminalFormatter;
            sh_Level := 0;
            sh_mu := unlocked |} ;;
  Ret (Some h).

Definition StreamHandler_Emit (self : StreamHandler) (record : pointer)
  : Prog unit :=
  res <- Formatter_Format (sh_Formatter self) record ;;
  let '(msg, err) := res in
  (match err with
   | Some e =>
       fmt_Fprintf (FileWriter os_Stderr)
         ("Format record failed, [%v]" +:+ newline) [e]
   | None => Ret tt
   end) ;;
  fmt_Fprintln (sh_Out self) msg.

Definition StreamHandler_Filter (self : StreamHandler) (record : pointer)
  : Prog bool :=
  r <- deref_record record ;;
  if (Level r <? sh_Level self)%Z then Ret true else Ret false.

(** The receiver is a value: [self] is a variable of the call, initialised
    with a copy of the struct the method is called on.  [self.mu.Lock()]
    takes the address of the field [mu] of that variable. *)
Definition StreamHandler_Handle (receiver : StreamHandler) (record : pointer)
  : Prog unit :=
  self <- var_StreamHandler receiver ;;
  s <- deref_StreamHandler (Some self) ;;
  filtered <- StreamHandler_Filter s record ;;
  if negb filtered then
    sync_Mutex_Lock (MuStream self) ;;
    defer (sync_Mutex_Unlock (MuStream self))
      (s <- deref_StreamHandler (Some self) ;;
       StreamHandler_Emit s record)
  else Ret tt.

Definition StreamHandler_Close (self : StreamHandler) : Prog error :=
  Ret None.

(** *** FileHandler *)

Definition NewFileHandler (name path : string) : Prog pointer :=
  res <- os_OpenFile path (Z.lor (Z.lor O_WRONLY O_APPEND) O_CREATE)
           (octal [6; 6; 0]%Z) ;;
  let '(file, err) := res in
  match err with
  | Some _ => Panic (fmt_Sprintf "can not open file %s" [path])
  | None =>
      hdlr <- var_FileHandler
                {| fh_Name := name;
                   fh_Out := file;
                   fh_Path := path;
                   fh_Formatter := DefaultFormatter;
                   fh_Level := 0;
                   fh_mu := unlocked |} ;;
      Ret (Some hdlr)
  end.

Definition FileHandler_Emit (self : FileHandler) (record : pointer)
  : Prog unit :=
  res <- Formatter_Format (fh_Formatter self) record ;;
  let '(msg, err) := res in
  (match err with
   | Some e =>
       fmt_Fprintf (FileWriter os_Stderr)
         ("Format record failed, [%v]" +:+ newline) [e]
   | None => Ret tt
   end) ;;
  fmt_Fprintln (FileWriter (fh_Out self)) msg.

Definition FileHandler_Filter (self : FileHandler) (record : pointer)
  : Prog bool :=
  r <- deref_record record ;;
  if (Level r <? fh_Level self)%Z then Ret true else Ret false.

Definition FileHandler_Handle (receiver : FileHandler) (record : pointer)
  : Prog unit :=
  self <- var_FileHandler receiver ;;
  s <- deref_FileHandler (Some self) ;;
  filtered <- FileHandler_Filter s record ;;
  if negb filtered then
    sync_Mutex_Lock (MuFile self) ;;
    defer (sync_Mutex_Unlock (MuFile self))
      (s <- deref_FileHandler (Some self) ;;
       FileHandler_Emit s record)
  else Ret tt.

Definition FileHandler_Close (self : FileHandler) : Prog error :=
  os_File_Close (fh_Out self).

(** *** Calls through a pointer *)

(** The constructors return pointers, and a [Handler] interface value made
    from one holds the pointer.  A method with a value receiver called on a
    pointer [h] is called on [*h]: the struct is copied out first. *)
Definition StreamHandler_ptr_Handle (h record : pointer) : Prog unit :=
  s <- deref_StreamHandler h ;; StreamHandler_Handle s record.

Definition StreamHandler_ptr_Filter (h record : pointer) : Prog bool :=
  s <- deref_StreamHandler h ;; StreamHandler_Filter s record.

Definition StreamHandler_ptr_Emit (h record : pointer) : Prog unit :=
  s <- deref_StreamHandler h ;; StreamHandler_Emit s record.

Definition StreamHandler_ptr_Close (h : pointer) : Prog error :=
  s <- deref_StreamHandler h ;; StreamHandler_Close s.

Definition FileHandler_ptr_Handle (h record : pointer) : Prog unit :=
  s <- deref_FileHandler h ;; FileHandler_Handle s record.

Definition FileHandler_ptr_Filter (h record : pointer) : Prog bool :=
  s <- deref_FileHandler h ;; FileHandler_Filter s record.

Definition FileHandler_ptr_Emit (h record : pointer) : Prog unit :=
  s <- deref_FileHandler h ;; FileHandler_Emit s record.

Definition FileHandler_ptr_Close (h : pointer) : Prog error :=
  s <- deref_FileHandler h ;; FileHandler_Close s.

(** *** The interface *)

Class Handler (T : Type) := {
  Handle : T -> pointer -> Prog unit;
  Filter : T -> pointer -> Prog bool;
  Emit : T -> pointer -> Prog unit;
  Close : T -> Prog error
}.

#[export] Instance NullHandler_Handler : Handler NullHandler := {
  Handle := NullHandler_Handle;
  Filter := NullHandler_Filter;
  Emit := NullHandler_Emit;
  Close := NullHandler_Close
}.

#[export] Instance StreamHandler_Handler : Handler StreamHandler := {
  Handle := StreamHandler_Handle;
  Filter := StreamHandler_Filter;
  Emit := StreamHandler_Emit;
  Close := StreamHandler_Close
}.

#[export] Instance FileHandler_Handler : Handler FileHandler := {
  Handle := FileHandler_Handle;
  Filter := FileHandler_Filter;
  Emit := FileHandler_Emit;
  Close := FileHandler_Close
}.
Section Handlers.

(** What the [Format] methods of the two package formatters compute.  They
    are defined outside handler.go and stay parameters. *)
Variable TerminalFormat : LogRecord -> string * error.
Variable DefaultFormat : LogRecord -> string * error.

Definition format_of (f : Formatter) : option (LogRecord -> string * error) :=
  match f with
  | NilFormatter => None
  | TerminalFormatter => Some TerminalFormat
  | DefaultFormatter => Some DefaultFormat
  | FormatterFunc format => Some format
  end.

(** One atomic operation of goroutine [t] in world [w].  [None]: the
    operation cannot proceed now and the goroutine waits, which only
    [Lock] on a held mutex does. *)
Definition exec (t : tid) (o : Op) (w : World) : option (Res o * World) :=
  match o return option (Res o * World) with
  | OpLoadRecord p => Some (deref (records w) p, w)
  | OpNewStreamVar s =>
      Some (length (stream_vars w), with_stream_vars w (stream_vars w ++ [s]))
  | OpLoadStreamVar p => Some (deref (stream_vars w) p, w)
  | OpNewFileVar f =>
      Some (length (file_vars w), with_file_vars w (file_vars w ++ [f]))
  | OpLoadFileVar p => Some (deref (file_vars w) p, w)
  | OpLock m =>
      match mutex_at w m with
      | None => Some (MuNil, w)
      | Some mu =>
          if held mu then None
          else Some (MuOk, log t (EvLock m) (set_mutex w m {| held := true |}))
      end
  | OpUnlock m =>
      match mutex_at w m with
      | None => Some (MuNil, w)
      | Some mu =>
          if held mu
          then Some (MuOk, log t (EvUnlock m) (set_mutex w m {| held := false |}))
          else Some (MuNotLocked, w)
      end
  | OpFormat f record =>
      match format_of f with
      | None => Some (None, w)
      | Some format =>
          Some (format <$> deref (records w) record, log t (EvFormat f record) w)
      end
  | OpFprintf wr text =>
      match write_bytes wr text (log t (EvFprintf wr text) w) with
      | None => Some (None, log t (EvFprintf wr text) w)
      | Some (e, w') => Some (Some e, w')
      end
  | OpFprintln wr a =>
      match write_bytes wr (a +:+ newline) (log t (EvFprintln wr a) w) with
      | None => Some (None, log t (EvFprintln wr a) w)
      | Some (e, w') => Some (Some e, w')
      end
  | OpOpenFile name flag perm =>
      Some (open_file name flag perm (log t (EvOpenFile name flag perm) w))
  | OpCloseFile f => Some (close_file f (log t (EvClose f) w))
  end.


(** One goroutine alone: the program runs until it returns, panics, or
    waits for a lock that nobody will release. *)
Fixpoint run {A} (t : tid) (m : Prog A) (w : World) : Outcome A * World :=
  match m with
  | Ret a => (Returned a, w)
  | Panic v => (Panicked v, w)
  | Vis o k =>
      match exec t o w with
      | Some (x, w') => run t (k x) w'
      | None => (Blocked, w)
      end
  end.

(** ** Observations *)

#[export] Instance Writer_eq_dec : EqDecision Writer.
Proof. solve_decision. Defined.

#[export] Instance MutexAddr_eq_dec : EqDecision MutexAddr.
Proof. solve_decision. Defined.

(** The text of the diagnostic that [Emit] prints for a formatter error. *)
Definition diagnostic (e : string) : string :=
  "Format record failed, [" +:+ e +:+ "]" +:+ newline.

Definition is_format (e : tid * Event) : bool :=
  match e.2 with
  | EvFormat _ _ => true
  | _ => false
  end.

Definition is_write (e : tid * Event) : bool :=
  match e.2 with
  | EvFprintf _ _ | EvFprintln _ _ => true
  | _ => false
  end.

(** The formatter invocations and the writes among the events. *)
Definition formats (tr : list (tid * Event)) : list (tid * Event) :=
  List.filter is_format tr.

Definition writes (tr : list (tid * Event)) : list (tid * Event) :=
  List.filter is_write tr.

(** The lines handed to [fmt.Fprintln] for the writer [out]. *)
Fixpoint lines_to (out : Writer) (tr : list (tid * Event)) : list string :=
  match tr with
  | [] => []
  | (_, EvFprintln wr a) :: rest =>
      if decide (wr = out) then a :: lines_to out rest else lines_to out rest
  | _ :: rest => lines_to out rest
  end.

(** The diagnostics printed on the standard error stream. *)
Fixpoint diagnostics (tr : list (tid * Event)) : list string :=
  match tr with
  | [] => []
  | (_, EvFprintf wr text) :: rest =>
      if decide (wr = FileWriter os_Stderr) then text :: diagnostics rest
      else diagnostics rest
  | _ :: rest => diagnostics rest
  end.

(** The bytes a sink holds: what has been written through the file object,
    or the contents of the buffer. *)
Definition sink_contents (w : World) (wr : Writer) : string :=
  match wr with
  | NilWriter => ""
  | FileWriter p => default "" (f_written <$> deref (os_files w) p)
  | BufferWriter b => default "" (buffers w !! b)
  end.

(** The sink takes what is written to it: an open file that was not opened
    read-only, or a buffer. *)
Definition sink_accepts (w : World) (wr : Writer) : bool :=
  match wr with
  | NilWriter => false
  | FileWriter p => default false (writable <$> deref (os_files w) p)
  | BufferWriter b => bool_decide (is_Some (buffers w !! b))
  end.

(** The writer can be called at all: [Write] on it does not dereference
    nil. *)
Definition sink_callable (w : World) (wr : Writer) : bool :=
  match wr with
  | NilWriter => false
  | FileWriter _ => true
  | BufferWriter b => bool_decide (is_Some (buffers w !! b))
  end.

(** The world after a print of [data] on [wr], recorded as event [ev]. *)
Definition fprint (t : tid) (ev : Event) (wr : Writer) (data : string)
    (w : World) : World :=
  match write_bytes wr data (log t ev w) with
  | Some (_, w') => w'
  | None => log t ev w
  end.

(** ** Goroutines *)

(** The goroutines of a program, each with what it still has to do. *)
Definition Pool := list (Prog unit).

(** Goroutine [t] performs its next atomic operation.  [None]: it has
    finished, or it waits for a lock. *)
Definition go_step (t : tid) (c : Pool * World) : option (Pool * World) :=
  match c.1 !! t with
  | Some (Vis o k) =>
      match exec t o c.2 with
      | Some (x, w') => Some (<[t := k x]> c.1, w')
      | None => None
      end
  | _ => None
  end.

(** A schedule names the goroutine that moves at each step. *)
Fixpoint run_schedule (sched : list tid) (c : Pool * World)
  : option (Pool * World) :=
  match sched with
  | [] => Some c
  | t :: rest =>
      match go_step t c with
      | Some c' => run_schedule rest c'
      | None => None
      end
  end.

Definition finished (p : Prog unit) : bool :=
  match p with
  | Ret _ => true
  | _ => false
  end.

(** A goroutine is inside [Emit] from the call of the formatter, the first
    thing [Emit] does, to its [Fprintln], the last.  [emits_overlap inside
    tr]: some goroutine enters [Emit] in [tr] while another one is inside. *)
Fixpoint emits_overlap (inside : option tid) (tr : list (tid * Event))
  : bool :=
  match tr with
  | [] => false
  | (t, EvFormat _ _) :: rest =>
      match inside with
      | Some t' => if decide (t' = t) then emits_overlap inside rest else true
      | None => emits_overlap (Some t) rest
      end
  | (t, EvFprintln _ _) :: rest =>
      match inside with
      | Some t' =>
          if decide (t' = t) then emits_overlap None rest
          else emits_overlap inside rest
      | None => emits_overlap None rest
      end
  | _ :: rest => emits_overlap inside rest
  end.

(** The nine permission bits of a file mode, from the owner's read bit
    down to the others' execute bit. *)
Definition permission_bits (perm : Z) : list bool :=
  List.map (Z.testbit perm) [8; 7; 6; 5; 4; 3; 2; 1; 0]%Z.

(** The flags and the permissions with which [NewFileHandler] opens. *)
Definition open_flag : Z := Z.lor (Z.lor O_WRONLY O_APPEND) O_CREATE.
Definition open_perm : Z := octal [6; 6; 0]%Z.

(** ** Sample worlds *)

Definition std_file (name : string) (flag : Z) : File :=
  {| f_name := name; f_flag := flag; f_perm := 0; f_closed := false;
     f_written := "" |}.

Definition sample_record : LogRecord := {| Level := 3; Text := "disk full" |}.

(** A process at start with the records [rs] on the heap: the three
    standard streams are open, and the file system refuses to open
    anything under the directory /nodir. *)
Definition start (rs : list LogRecord) : World :=
  {| records := rs;
     stream_vars := [];
     file_vars := [];
     buffers := [];
     os_files := [std_file "/dev/stdin" O_RDONLY;
                  std_file "/dev/stdout" O_WRONLY;
                  std_file "/dev/stderr" O_WRONLY];
     fs_open := fun name _ _ =>
       if String.prefix "/nodir/" name
       then Some "no such file or directory" else None;
     fs_close := fun _ => None;
     trace := [] |}.

Definition boot : World := start [sample_record].

(** A second record, for calls with more than one. *)
Definition second_record : LogRecord := {| Level := 5; Text := "retrying" |}.

(** A file handler on the file object 3, and the world in which that file
    is open and the handler at address 0. *)
Definition log_handler : FileHandler :=
  {| fh_Path := "/var/log/app.log";
     fh_Out := Some 3;
     fh_Name := "app";
     fh_Level := 0;
     fh_Formatter := DefaultFormatter;
     fh_mu := unlocked |}.

Definition log_world (rs : list LogRecord) : World :=
  with_file_vars
    (with_os_files (start rs)
       (os_files (start rs) ++
          [{| f_name := "/var/log/app.log"; f_flag := open_flag;
              f_perm := open_perm; f_closed := false; f_written := "" |}]))
    [log_handler].

(** A record below every level in use. *)
Definition trace_record : LogRecord := {| Level := -1; Text := "enter" |}.

(** The handler that [NewStreamHandler "app"] makes, and the world in
    which it is the one handler, at address 0. *)
Definition app_handler : StreamHandler :=
  {| sh_Name := "app";
     sh_Out := FileWriter os_Stderr;
     sh_Formatter := TerminalFormatter;
     sh_Level := 0;
     sh_mu := unlocked |}.

Definition app_world (rs : list LogRecord) : World :=
  with_stream_vars (start rs) [app_handler].

(** Two goroutines that each call [Handle] once, on the same handler and
    with the same record. *)
Definition two_goroutines : Pool :=
  [StreamHandler_ptr_Handle (Some 0) (Some 0);
   StreamHandler_ptr_Handle (Some 0) (Some 0)].

(** Goroutine 0 runs until it is inside [Emit], between the call of the
    formatter and the print; goroutine 1 then does the same; after that
    they print and unlock in turn. *)
Definition overlapping_schedule : list tid :=
  [0; 0; 0; 0; 0; 0; 0; 1; 1; 1; 1; 1; 1; 1; 0; 1; 0; 1].

(** Follows the words of the spec, not the code: "it acquires the
    handler's private lock, then calls Emit while holding the lock, then
    releases the lock".  The lock is the mutex of the handler that [h]
    points to, for every caller the same one. *)
Definition Spec_StreamHandler_Handle (h record : pointer) : Prog unit :=
  s <- deref_StreamHandler h ;;
  filtered <- StreamHandler_Filter s record ;;
  if negb filtered then
    match h with
    | Some l =>
        sync_Mutex_Lock (MuStream l) ;;
        defer (sync_Mutex_Unlock (MuStream l))
          (s <- deref_StreamHandler h ;;
           StreamHandler_Emit s record)
    | None => Panic nil_dereference
    end
  else Ret tt.

Definition two_goroutines_by_the_spec : Pool :=
  [Spec_StreamHandler_Handle (Some 0) (Some 0);
   Spec_StreamHandler_Handle (Some 0) (Some 0)].

Definition text_format (r : LogRecord) : string * error := (Text r, None).

Definition failing_format (r : LogRecord) : string * error :=
  (Text r, Some "bad record").

(** ** Results of the methods, for stating what they do *)

(** Sequencing of results: the second step runs if the first returned. *)
Definition then_run {A B} (r : Outcome A * World)
    (k : A -> World -> Outcome B * World) : Outcome B * World :=
  match r with
  | (Returned a, w) => k a w
  | (Panicked v, w) => (Panicked v, w)
  | (Blocked, w) => (Blocked, w)
  end.

(** What [defer d] makes of the way the body ends. *)
Definition leave {A} (t : tid) (d : Prog unit) (r : Outcome A * World)
  : Outcome A * World :=
  match r with
  | (Returned a, w) => then_run (run t d w) (fun _ w' => (Returned a, w'))
  | (Panicked v, w) => then_run (run t d w) (fun _ w' => (Panicked v, w'))
  | (Blocked, w) => (Blocked, w)
  end.

(** The world after [Emit] with formatter [f] and sink [out], when the
    formatter returned [res]. *)
Definition emitted (t : tid) (f : Formatter) (out : Writer) (record : pointer)
    (res : string * error) (w : World) : World :=
  let w1 := log t (EvFormat f record) w in
  let w2 :=
    match res.2 with
    | Some e =>
        fprint t (EvFprintf (FileWriter os_Stderr) (diagnostic e))
          (FileWriter os_Stderr) (diagnostic e) w1
    | None => w1
    end in
  fprint t (EvFprintln out res.1) out (res.1 +:+ newline) w2.

(** The world after an unsuppressed [Handle] on a copy of [h]: the
    variable [self] is made, its mutex is locked, [Emit] runs, and the
    mutex of [self] is unlocked. *)
Definition handled_stream (t : tid) (h : StreamHandler) (record : pointer)
    (res : string * error) (w : World) : World :=
  let m := MuStream (length (stream_vars w)) in
  let w1 := with_stream_vars w (stream_vars w ++ [h]) in
  let w2 := log t (EvLock m) (set_mutex w1 m {| held := true |}) in
  let w3 := emitted t (sh_Formatter h) (sh_Out h) record res w2 in
  log t (EvUnlock m) (set_mutex w3 m {| held := false |}).

Definition handled_file (t : tid) (h : FileHandler) (record : pointer)
    (res : string * error) (w : World) : World :=
  let m := MuFile (length (file_vars w)) in
  let w1 := with_file_vars w (file_vars w ++ [h]) in
  let w2 := log t (EvLock m) (set_mutex w1 m {| held := true |}) in
  let w3 :=
    emitted t (fh_Formatter h) (FileWriter (fh_Out h)) record res w2 in
  log t (EvUnlock m) (set_mutex w3 m {| held := false |}).

(** The events of one [Emit]. *)
Definition emit_events (t : tid) (f : Formatter) (out : Writer)
    (record : pointer) (res : string * error) : list (tid * Event) :=
  [(t, EvFormat f record)] ++
  match res.2 with
  | Some e => [(t, EvFprintf (FileWriter os_Stderr) (diagnostic e))]
  | None => []
  end ++
  [(t, EvFprintln out res.1)].

(** The bytes of the diagnostic that land in the sink [out] itself, which
    happens when [out] is the standard error stream. *)
Definition diagnostic_in (out : Writer) (err : error) : string :=
  match err with
  | Some e => if decide (out = FileWriter os_Stderr) then diagnostic e else ""
  | None => ""
  end.

(** The events of an unsuppressed [Handle] on the mutex at [m]. *)
Definition handle_events (t : tid) (m : MutexAddr) (f : Formatter)
    (out : Writer) (p : pointer) (res : string * error)
  : list (tid * Event) :=
  [(t, EvLock m)] ++ emit_events t f out p res ++ [(t, EvUnlock m)].

(** What [Emit] adds to its sink. *)
Definition line_in (w : World) (out : Writer) (res : string * error)
  : string :=
  if sink_accepts w out
  then diagnostic_in out res.2 +:+ res.1 +:+ newline
  else "".

(** Between the worlds [w] and [w'] the error [e] of the formatter was
    reported and the line [msg] printed on [out] all the same: one
    diagnostic on the standard error stream, one line on [out]; the sink
    has grown by the line, and the standard error stream, when it is not
    the sink, by the diagnostic. *)
Definition reported_and_printed (out : Writer) (msg e : string)
    (w w' : World) : Prop :=
  exists evs,
    trace w' = trace w ++ evs /\
    diagnostics evs = [diagnostic e] /\
    lines_to out evs = [msg] /\
    sink_contents w' out = sink_contents w out +:+ line_in w out (msg, Some e) /\
    (out <> FileWriter os_Stderr ->
     sink_accepts w (FileWriter os_Stderr) = true ->
     sink_contents w' (FileWriter os_Stderr) =
       sink_contents w (FileWriter os_Stderr) +:+ diagnostic e).

(** Between the worlds [w] and [w'] one more line was printed on [out],
    and no record was touched. *)
Definition one_more_line (out : Writer) (res : string * error)
    (w w' : World) : Prop :=
  records w' = records w /\
  (exists evs, trace w' = trace w ++ evs /\ lines_to out evs = [res.1]) /\
  sink_accepts w' out = sink_accepts w out /\
  sink_contents w' out = sink_contents w out +:+ line_in w out res.

(** The lock and unlock events among the events. *)
Definition is_lock (e : tid * Event) : bool :=
  match e.2 with
  | EvLock _ | EvUnlock _ => true
  | _ => false
  end.

Definition locks (tr : list (tid * Event)) : list (tid * Event) :=
  List.filter is_lock tr.

(** A caller's loop, [for _, x := range xs { f(x) }]. *)
Fixpoint each {A} (f : A -> Prog unit) (xs : list A) : Prog unit :=
  match xs with
  | [] => Ret tt
  | x :: rest => f x ;; each f rest
  end.

(** What the formatter [fn] makes of the record at [p]. *)
Definition formatted (fn : LogRecord -> string * error) (w : World)
    (p : pointer) : string * error :=
  match deref (records w) p with
  | Some r => fn r
  | None => ("", None)
  end.

(** The bytes that [Handle], called for each of [ps] in turn, adds to the
    sink [out]. *)
Fixpoint lines_in (w : World) (out : Writer)
    (fn : LogRecord -> string * error) (ps : list pointer) : string :=
  match ps with
  | [] => ""
  | p :: rest => line_in w out (formatted fn w p) +:+ lines_in w out fn rest
  end.

(** What no operation changes: the records, and every field of a handler
    variable except the state of its mutex. *)
Definition kept (w w' : World) : Prop :=
  records w' = records w /\
  (forall i s, stream_vars w !! i = Some s ->
     exists mu, stream_vars w' !! i = Some (sh_with_mu s mu)) /\
  (forall i f, file_vars w !! i = Some f ->
     exists mu, file_vars w' !! i = Some (fh_with_mu f mu)).

(** All schedules at once: no state that [c] can reach in at most [fuel]
    steps has overlapping [Emit] calls, and after [fuel] steps no goroutine
    can move any more. *)
Fixpoint never_overlaps (fuel : nat) (c : Pool * World) : bool :=
  negb (emits_overlap None (trace c.2)) &&
  forallb
    (fun t =>
       match go_step t c with
       | None => true
       | Some c' =>
           match fuel with
           | O => false
           | S n => never_overlaps n c'
           end
       end)
    (seq 0 (length c.1)).

(** As [overlapping_schedule], for a formatter that fails: each goroutine
    also prints its diagnostic before the other one moves. *)
Definition overlapping_schedule_with_diagnostics : list tid :=
  [0; 0; 0; 0; 0; 0; 0; 0; 1; 1; 1; 1; 1; 1; 1; 1; 0; 1; 0; 1].

(** * Properties *)

Arguments fprint : simpl never.
Arguments emitted : simpl never.
Arguments handled_stream : simpl never.
Arguments handled_file : simpl never.

(** ** The sequential semantics of the combinators *)

Lemma run_bind {A B} t (m : Prog A) (k : A -> Prog B) w :
  run t (x <- m ;; k x) w = then_run (run t m w) (fun a w' => run t (k a) w').
Proof.
  revert w. induction m as [a|v|o c IH]; intros w; simpl; try reflexivity.
  destruct (exec t o w) as [[x w']|]; [apply IH | reflexivity].
Qed.

Lemma run_defer {A} t (d : Prog unit) (body : Prog A) w :
  run t (defer d body) w = leave t d (run t body w).
Proof.
  revert w. induction body as [a|v|o c IH]; intros w; simpl.
  - rewrite run_bind. reflexivity.
  - rewrite run_bind. reflexivity.
  - destruct (exec t o w) as [[x w']|]; [apply IH | reflexivity].
Qed.

(** ** What each call does, run alone *)

Lemma run_var_StreamHandler t s w :
  run t (var_StreamHandler s) w =
  (Returned (length (stream_vars w)),
   with_stream_vars w (stream_vars w ++ [s])).
Proof. reflexivity. Qed.

Lemma run_var_FileHandler t f w :
  run t (var_FileHandler f) w =
  (Returned (length (file_vars w)), with_file_vars w (file_vars w ++ [f])).
Proof. reflexivity. Qed.

Lemma run_deref_record t p r w :
  deref (records w) p = Some r ->
  run t (deref_record p) w = (Returned r, w).
Proof. intros H. simpl. rewrite H. reflexivity. Qed.

Lemma run_deref_record_nil t p w :
  deref (records w) p = None ->
  run t (deref_record p) w = (Panicked nil_dereference, w).
Proof. intros H. simpl. rewrite H. reflexivity. Qed.

Lemma run_deref_StreamHandler t p s w :
  deref (stream_vars w) p = Some s ->
  run t (deref_StreamHandler p) w = (Returned s, w).
Proof. intros H. simpl. rewrite H. reflexivity. Qed.

Lemma run_deref_FileHandler t p f w :
  deref (file_vars w) p = Some f ->
  run t (deref_FileHandler p) w = (Returned f, w).
Proof. intros H. simpl. rewrite H. reflexivity. Qed.

Lemma run_Lock t m mu w :
  mutex_at w m = Some mu -> held mu = false ->
  run t (sync_Mutex_Lock m) w =
  (Returned tt, log t (EvLock m) (set_mutex w m {| held := true |})).
Proof. intros H1 H2. simpl. rewrite H1, H2. reflexivity. Qed.

Lemma run_Lock_held t m mu w :
  mutex_at w m = Some mu -> held mu = true ->
  run t (sync_Mutex_Lock m) w = (Blocked, w).
Proof. intros H1 H2. simpl. rewrite H1, H2. reflexivity. Qed.

Lemma run_Unlock t m mu w :
  mutex_at w m = Some mu -> held mu = true ->
  run t (sync_Mutex_Unlock m) w =
  (Returned tt, log t (EvUnlock m) (set_mutex w m {| held := false |})).
Proof. intros H1 H2. simpl. rewrite H1, H2. reflexivity. Qed.

Lemma run_Format t f fn p r w :
  format_of f = Some fn -> deref (records w) p = Some r ->
  run t (Formatter_Format f p) w = (Returned (fn r), log t (EvFormat f p) w).
Proof. intros H1 H2. simpl. rewrite H1, H2. reflexivity. Qed.

Lemma write_bytes_callable wr data w :
  sink_callable w wr = true -> is_Some (write_bytes wr data w).
Proof.
  destruct wr as [|[l|]|b]; simpl; try discriminate; intros H.
  - destruct (os_files w !! l) as [f|]; [|eauto].
    destruct (f_closed f); [eauto|].
    destruct (Z.land (f_flag f) O_ACCMODE =? O_RDONLY)%Z; eauto.
  - eauto.
  - apply bool_decide_eq_true in H as [s Hs]. rewrite Hs. eauto.
Qed.

Lemma write_bytes_not_callable wr data w :
  sink_callable w wr = false -> write_bytes wr data w = None.
Proof.
  destruct wr as [|[l|]|b]; simpl; try discriminate; intros H; [reflexivity|].
  apply bool_decide_eq_false in H.
  destruct (buffers w !! b) eqn:E; [|reflexivity].
  exfalso. apply H. eauto.
Qed.

Lemma run_Fprintf t wr format a w :
  sink_callable w wr = true ->
  run t (fmt_Fprintf wr format a) w =
  (Returned tt,
   fprint t (EvFprintf wr (fmt_Sprintf format a)) wr (fmt_Sprintf format a) w).
Proof.
  intros H. unfold fprint. simpl.
  destruct (write_bytes_callable wr (fmt_Sprintf format a)
              (log t (EvFprintf wr (fmt_Sprintf format a)) w) H) as [[e w'] E].
  rewrite E. reflexivity.
Qed.

Lemma run_Fprintln t wr a w :
  sink_callable w wr = true ->
  run t (fmt_Fprintln wr a) w =
  (Returned tt, fprint t (EvFprintln wr a) wr (a +:+ newline) w).
Proof.
  intros H. unfold fprint. simpl.
  destruct (write_bytes_callable wr (a +:+ newline)
              (log t (EvFprintln wr a) w) H) as [[e w'] E].
  rewrite E. reflexivity.
Qed.

Lemma run_Fprintln_nil t wr a w :
  sink_callable w wr = false ->
  run t (fmt_Fprintln wr a) w =
  (Panicked nil_dereference, fprint t (EvFprintln wr a) wr (a +:+ newline) w).
Proof.
  intros H. unfold fprint. simpl.
  rewrite (write_bytes_not_callable wr (a +:+ newline)
             (log t (EvFprintln wr a) w) H).
  reflexivity.
Qed.

(** ** What a print changes *)

Lemma write_bytes_frame wr data w e w' :
  write_bytes wr data w = Some (e, w') ->
  records w' = records w /\ stream_vars w' = stream_vars w /\
  file_vars w' = file_vars w /\ trace w' = trace w /\
  fs_open w' = fs_open w /\ fs_close w' = fs_close w.
Proof.
  destruct wr as [|[l|]|b]; simpl; try discriminate.
  - destruct (os_files w !! l) as [f|].
    + destruct (f_closed f);
        [|destruct (Z.land (f_flag f) O_ACCMODE =? O_RDONLY)%Z];
        intros [= <- <-]; repeat split.
    + intros [= <- <-]; repeat split.
  - intros [= <- <-]; repeat split.
  - destruct (buffers w !! b); [|discriminate].
    intros [= <- <-]; repeat split.
Qed.

Lemma fprint_frame t ev wr data w :
  records (fprint t ev wr data w) = records w /\
  stream_vars (fprint t ev wr data w) = stream_vars w /\
  file_vars (fprint t ev wr data w) = file_vars w /\
  trace (fprint t ev wr data w) = trace w ++ [(t, ev)] /\
  fs_open (fprint t ev wr data w) = fs_open w /\
  fs_close (fprint t ev wr data w) = fs_close w.
Proof.
  unfold fprint.
  destruct (write_bytes wr data (log t ev w)) as [[e w']|] eqn:E.
  - apply write_bytes_frame in E. exact E.
  - repeat split.
Qed.

Lemma records_fprint t ev wr data w :
  records (fprint t ev wr data w) = records w.
Proof. apply fprint_frame. Qed.

Lemma stream_vars_fprint t ev wr data w :
  stream_vars (fprint t ev wr data w) = stream_vars w.
Proof. apply fprint_frame. Qed.

Lemma file_vars_fprint t ev wr data w :
  file_vars (fprint t ev wr data w) = file_vars w.
Proof. apply fprint_frame. Qed.

Lemma trace_fprint t ev wr data w :
  trace (fprint t ev wr data w) = trace w ++ [(t, ev)].
Proof. apply fprint_frame. Qed.

Lemma writable_with_written f s : writable (f_with_written f s) = writable f.
Proof. reflexivity. Qed.

Lemma sink_callable_fprint t ev wr data w wr' :
  sink_callable (fprint t ev wr data w) wr' = sink_callable w wr'.
Proof.
  destruct wr' as [|p|b']; try reflexivity.
  unfold fprint. destruct wr as [|[l|]|b]; simpl; try reflexivity.
  - destruct (os_files w !! l) as [f|]; [|reflexivity].
    destruct (f_closed f);
      [|destruct (Z.land (f_flag f) O_ACCMODE =? O_RDONLY)%Z]; reflexivity.
  - destruct (buffers w !! b) as [s|] eqn:E; [|reflexivity]. simpl.
    apply bool_decide_ext. rewrite list_lookup_insert_is_Some. reflexivity.
Qed.

Lemma sink_accepts_fprint t ev wr data w wr' :
  sink_accepts (fprint t ev wr data w) wr' = sink_accepts w wr'.
Proof.
  unfold fprint. destruct wr as [|[l|]|b]; simpl; try reflexivity.
  - destruct (os_files w !! l) as [f|] eqn:E; [|reflexivity].
    destruct (f_closed f) eqn:Ec; [reflexivity|].
    destruct (Z.land (f_flag f) O_ACCMODE =? O_RDONLY)%Z eqn:Ef;
      [reflexivity|].
    destruct wr' as [|[l'|]|b']; try reflexivity. simpl.
    destruct (decide (l = l')) as [<-|Hne].
    + rewrite list_lookup_insert_eq by (eapply lookup_lt_Some; eauto).
      rewrite E. reflexivity.
    + rewrite list_lookup_insert_ne by assumption. reflexivity.
  - destruct (buffers w !! b) as [s|] eqn:E; [|reflexivity].
    destruct wr' as [|p|b']; try reflexivity. simpl.
    apply bool_decide_ext. rewrite list_lookup_insert_is_Some. reflexivity.
Qed.

Lemma sink_contents_fprint_same t ev wr data w :
  sink_accepts w wr = true ->
  sink_contents (fprint t ev wr data w) wr = sink_contents w wr +:+ data.
Proof.
  unfold fprint. destruct wr as [|[l|]|b]; simpl; try discriminate.
  - destruct (os_files w !! l) as [f|] eqn:E; [|discriminate]. simpl.
    unfold writable. intros H. apply andb_true_iff in H as [H1 H2].
    apply negb_true_iff in H1, H2. rewrite H1, H2. simpl.
    rewrite list_lookup_insert_eq by (eapply lookup_lt_Some; eauto).
    reflexivity.
  - intros H. apply bool_decide_eq_true in H as [s Hs]. rewrite Hs. simpl.
    rewrite list_lookup_insert_eq by (eapply lookup_lt_Some; eauto).
    reflexivity.
Qed.

Lemma sink_contents_fprint_other t ev wr data w wr' :
  wr' <> wr ->
  sink_contents (fprint t ev wr data w) wr' = sink_contents w wr'.
Proof.
  intros Hne. unfold fprint. destruct wr as [|[l|]|b]; simpl; try reflexivity.
  - destruct (os_files w !! l) as [f|] eqn:E; [|reflexivity].
    destruct (f_closed f); [reflexivity|].
    destruct (Z.land (f_flag f) O_ACCMODE =? O_RDONLY)%Z; [reflexivity|].
    destruct wr' as [|[l'|]|b']; try reflexivity. simpl.
    rewrite list_lookup_insert_ne by congruence. reflexivity.
  - destruct (buffers w !! b) as [s|] eqn:E; [|reflexivity].
    destruct wr' as [|p|b']; try reflexivity. simpl.
    rewrite list_lookup_insert_ne by congruence. reflexivity.
Qed.

Lemma sink_contents_fprint_refused t ev wr data w wr' :
  sink_accepts w wr = false ->
  sink_contents (fprint t ev wr data w) wr' = sink_contents w wr'.
Proof.
  unfold fprint. destruct wr as [|[l|]|b]; simpl; try reflexivity.
  - destruct (os_files w !! l) as [f|] eqn:E; [|reflexivity]. simpl.
    unfold writable. intros H.
    destruct (f_closed f); [reflexivity|].
    destruct (Z.land (f_flag f) O_ACCMODE =? O_RDONLY)%Z; [reflexivity|].
    discriminate.
  - intros H. apply bool_decide_eq_false in H.
    destruct (buffers w !! b) as [s|] eqn:E; [|reflexivity].
    exfalso. apply H. eauto.
Qed.

(** ** Filter and Emit *)

(** Go on to the next call of a sequence. *)
Ltac next := cbv beta iota delta [then_run leave fst snd].

Lemma run_StreamHandler_Filter t h p r w :
  deref (records w) p = Some r ->
  run t (StreamHandler_Filter h p) w =
  (Returned (Level r <? sh_Level h)%Z, w).
Proof.
  intros H. unfold StreamHandler_Filter.
  rewrite run_bind, (run_deref_record _ _ r) by assumption. simpl.
  destruct (Level r <? sh_Level h)%Z; reflexivity.
Qed.

Lemma run_FileHandler_Filter t h p r w :
  deref (records w) p = Some r ->
  run t (FileHandler_Filter h p) w =
  (Returned (Level r <? fh_Level h)%Z, w).
Proof.
  intros H. unfold FileHandler_Filter.
  rewrite run_bind, (run_deref_record _ _ r) by assumption. simpl.
  destruct (Level r <? fh_Level h)%Z; reflexivity.
Qed.

Lemma Sprintf_diagnostic e :
  fmt_Sprintf ("Format record failed, [%v]" +:+ newline) [e] = diagnostic e.
Proof. reflexivity. Qed.

Lemma sink_callable_log t ev w wr :
  sink_callable (log t ev w) wr = sink_callable w wr.
Proof. destruct wr; reflexivity. Qed.

Lemma sink_accepts_log t ev w wr :
  sink_accepts (log t ev w) wr = sink_accepts w wr.
Proof. destruct wr; reflexivity. Qed.

Lemma sink_contents_log t ev w wr :
  sink_contents (log t ev w) wr = sink_contents w wr.
Proof. destruct wr; reflexivity. Qed.

(** [Emit] with formatter [f] and sink [out]: both handlers have this
    body. *)
Lemma run_Emit_body t f fn out p r w :
  format_of f = Some fn -> deref (records w) p = Some r ->
  run t
    (res <- Formatter_Format f p ;;
     let '(msg, err) := res in
     (match err with
      | Some e =>
          fmt_Fprintf (FileWriter os_Stderr)
            ("Format record failed, [%v]" +:+ newline) [e]
      | None => Ret tt
      end) ;;
     fmt_Fprintln out msg) w =
  (if sink_callable w out then Returned tt else Panicked nil_dereference,
   emitted t f out p (fn r) w).
Proof.
  intros Hf Hr.
  rewrite run_bind, (run_Format _ _ fn _ r) by assumption.
  unfold emitted. destruct (fn r) as [msg [e|]]; next; rewrite run_bind.
  - rewrite run_Fprintf by reflexivity. rewrite Sprintf_diagnostic. next.
    destruct (sink_callable w out) eqn:Hc.
    + apply run_Fprintln.
      rewrite sink_callable_fprint, sink_callable_log. exact Hc.
    + apply run_Fprintln_nil.
      rewrite sink_callable_fprint, sink_callable_log. exact Hc.
  - change (run t (Ret tt) ?w0) with (Returned tt, w0). next.
    destruct (sink_callable w out) eqn:Hc.
    + apply run_Fprintln. rewrite sink_callable_log. exact Hc.
    + apply run_Fprintln_nil. rewrite sink_callable_log. exact Hc.
Qed.

Lemma run_StreamHandler_Emit t s fn p r w :
  format_of (sh_Formatter s) = Some fn -> deref (records w) p = Some r ->
  run t (StreamHandler_Emit s p) w =
  (if sink_callable w (sh_Out s) then Returned tt
   else Panicked nil_dereference,
   emitted t (sh_Formatter s) (sh_Out s) p (fn r) w).
Proof. apply run_Emit_body. Qed.

Lemma run_FileHandler_Emit t s fn p r w :
  format_of (fh_Formatter s) = Some fn -> deref (records w) p = Some r ->
  run t (FileHandler_Emit s p) w =
  (Returned tt,
   emitted t (fh_Formatter s) (FileWriter (fh_Out s)) p (fn r) w).
Proof. apply (run_Emit_body t _ fn (FileWriter (fh_Out s))). Qed.

(** ** What Emit changes *)

Lemma emitted_frame t f out p res w :
  records (emitted t f out p res w) = records w /\
  stream_vars (emitted t f out p res w) = stream_vars w /\
  file_vars (emitted t f out p res w) = file_vars w /\
  trace (emitted t f out p res w) = trace w ++ emit_events t f out p res.
Proof.
  unfold emitted, emit_events. destruct res as [msg [e|]]; simpl.
  - rewrite !records_fprint, !stream_vars_fprint, !file_vars_fprint,
      !trace_fprint. simpl. rewrite <- !app_assoc. repeat split.
  - rewrite !records_fprint, !stream_vars_fprint, !file_vars_fprint,
      !trace_fprint. simpl. rewrite <- !app_assoc. repeat split.
Qed.

Lemma sink_accepts_emitted t f out p res w wr :
  sink_accepts (emitted t f out p res w) wr = sink_accepts w wr.
Proof.
  unfold emitted. destruct res as [msg [e|]]; simpl;
    rewrite ?sink_accepts_fprint, ?sink_accepts_log; reflexivity.
Qed.

Lemma append_empty_l (s : string) : "" +:+ s = s.
Proof. reflexivity. Qed.

Lemma append_assoc (a b c : string) : (a +:+ b) +:+ c = a +:+ b +:+ c.
Proof.
  induction a as [|x a IH]; [reflexivity|].
  change (String x ((a +:+ b) +:+ c) = String x (a +:+ b +:+ c)).
  now rewrite IH.
Qed.

(** A sink that takes the bytes grows by the line, after the diagnostic
    when the sink is the standard error stream itself. *)
Lemma sink_contents_emitted t f out p res w :
  sink_accepts w out = true ->
  sink_contents (emitted t f out p res w) out =
  sink_contents w out +:+ diagnostic_in out res.2 +:+ res.1 +:+ newline.
Proof.
  intros Ha. unfold emitted, diagnostic_in.
  destruct res as [msg [e|]]; simpl fst; simpl snd; cbv zeta.
  - rewrite sink_contents_fprint_same
      by (rewrite sink_accepts_fprint, sink_accepts_log; exact Ha).
    destruct (decide (out = FileWriter os_Stderr)) as [->|Hne].
    + rewrite sink_contents_fprint_same
        by (rewrite sink_accepts_log; exact Ha).
      rewrite sink_contents_log, append_assoc. reflexivity.
    + rewrite sink_contents_fprint_other by assumption.
      rewrite sink_contents_log. reflexivity.
  - rewrite sink_contents_fprint_same
      by (rewrite sink_accepts_log; exact Ha).
    rewrite sink_contents_log. reflexivity.
Qed.

(** Any other sink is left alone, the standard error stream apart. *)
Lemma sink_contents_emitted_other t f out p res w wr :
  wr <> out -> (res.2 = None \/ wr <> FileWriter os_Stderr) ->
  sink_contents (emitted t f out p res w) wr = sink_contents w wr.
Proof.
  intros Hne Hd. unfold emitted.
  rewrite sink_contents_fprint_other by assumption.
  destruct res as [msg [e|]]; simpl in *.
  - destruct Hd as [Hd|Hd]; [discriminate|].
    rewrite sink_contents_fprint_other by assumption.
    apply sink_contents_log.
  - apply sink_contents_log.
Qed.

(** ** Handle *)

Lemma lookup_last {A} (l : list A) (x : A) : (l ++ [x]) !! length l = Some x.
Proof. now apply list_lookup_middle. Qed.

Lemma alter_last {A} (f : A -> A) (l : list A) (x : A) :
  alter f (length l) (l ++ [x]) = l ++ [f x].
Proof.
  rewrite alter_app_r_alt by lia. now rewrite Nat.sub_diag.
Qed.

Lemma lookup_before_last {A} (l : list A) (x y : A) i :
  l !! i = Some y -> (l ++ [x]) !! i = Some y.
Proof.
  intros H. rewrite lookup_app_l by (eapply lookup_lt_Some; eauto). exact H.
Qed.

Lemma run_StreamHandler_Handle_suppress t h p r w :
  deref (records w) p = Some r -> (Level r < sh_Level h)%Z ->
  run t (StreamHandler_Handle h p) w =
  (Returned tt, with_stream_vars w (stream_vars w ++ [h])).
Proof.
  intros Hr Hl. unfold StreamHandler_Handle.
  rewrite run_bind, run_var_StreamHandler. next.
  rewrite run_bind, (run_deref_StreamHandler _ _ h)
    by (simpl; apply lookup_last). next.
  rewrite run_bind, (run_StreamHandler_Filter _ _ _ r) by exact Hr. next.
  replace (Level r <? sh_Level h)%Z with true
    by (symmetry; apply Z.ltb_lt; exact Hl).
  reflexivity.
Qed.

Lemma run_StreamHandler_Handle_emit t h fn p r w :
  deref (records w) p = Some r ->
  format_of (sh_Formatter h) = Some fn ->
  held (sh_mu h) = false ->
  (sh_Level h <= Level r)%Z ->
  run t (StreamHandler_Handle h p) w =
  (if sink_callable w (sh_Out h) then Returned tt
   else Panicked nil_dereference,
   handled_stream t h p (fn r) w).
Proof.
  intros Hr Hf Hm Hl. unfold StreamHandler_Handle.
  rewrite run_bind, run_var_StreamHandler. next.
  rewrite run_bind, (run_deref_StreamHandler _ _ h)
    by (simpl; apply lookup_last). next.
  rewrite run_bind, (run_StreamHandler_Filter _ _ _ r) by exact Hr. next.
  replace (Level r <? sh_Level h)%Z with false
    by (symmetry; apply Z.ltb_ge; exact Hl).
  cbv [negb].
  rewrite run_bind, (run_Lock _ _ (sh_mu h));
    [|simpl; rewrite lookup_last; reflexivity|exact Hm]. next.
  rewrite run_defer, run_bind.
  rewrite (run_deref_StreamHandler _ _ (sh_with_mu h {| held := true |}))
    by (simpl; rewrite alter_last; apply lookup_last). next.
  rewrite (run_StreamHandler_Emit _ _ fn _ r); [|exact Hf|exact Hr].
  change (sink_callable _ (sh_Out (sh_with_mu h {| held := true |})))
    with (sink_callable w (sh_Out h)).
  assert (Hmu : forall w0,
    stream_vars w0 = stream_vars w ++ [sh_with_mu h {| held := true |}] ->
    mutex_at w0 (MuStream (length (stream_vars w))) = Some {| held := true |}).
  { intros w0 E. simpl. rewrite E, lookup_last. reflexivity. }
  destruct (sink_callable w (sh_Out h)); next.
  - rewrite (run_Unlock _ _ {| held := true |}); [reflexivity| |reflexivity].
    apply Hmu. destruct (emitted_frame t (sh_Formatter h) (sh_Out h) p (fn r)
      (log t (EvLock (MuStream (length (stream_vars w))))
         (set_mutex (with_stream_vars w (stream_vars w ++ [h]))
            (MuStream (length (stream_vars w))) {| held := true |})))
      as (_ & E & _).
    etransitivity; [exact E|].
    exact (alter_last (fun s => sh_with_mu s {| held := true |}) _ h).
  - rewrite (run_Unlock _ _ {| held := true |}); [reflexivity| |reflexivity].
    apply Hmu. destruct (emitted_frame t (sh_Formatter h) (sh_Out h) p (fn r)
      (log t (EvLock (MuStream (length (stream_vars w))))
         (set_mutex (with_stream_vars w (stream_vars w ++ [h]))
            (MuStream (length (stream_vars w))) {| held := true |})))
      as (_ & E & _).
    etransitivity; [exact E|].
    exact (alter_last (fun s => sh_with_mu s {| held := true |}) _ h).
Qed.

Lemma run_FileHandler_Handle_suppress t h p r w :
  deref (records w) p = Some r -> (Level r < fh_Level h)%Z ->
  run t (FileHandler_Handle h p) w =
  (Returned tt, with_file_vars w (file_vars w ++ [h])).
Proof.
  intros Hr Hl. unfold FileHandler_Handle.
  rewrite run_bind, run_var_FileHandler. next.
  rewrite run_bind, (run_deref_FileHandler _ _ h)
    by (simpl; apply lookup_last). next.
  rewrite run_bind, (run_FileHandler_Filter _ _ _ r) by exact Hr. next.
  replace (Level r <? fh_Level h)%Z with true
    by (symmetry; apply Z.ltb_lt; exact Hl).
  reflexivity.
Qed.

Lemma run_FileHandler_Handle_emit t h fn p r w :
  deref (records w) p = Some r ->
  format_of (fh_Formatter h) = Some fn ->
  held (fh_mu h) = false ->
  (fh_Level h <= Level r)%Z ->
  run t (FileHandler_Handle h p) w =
  (Returned tt, handled_file t h p (fn r) w).
Proof.
  intros Hr Hf Hm Hl. unfold FileHandler_Handle.
  rewrite run_bind, run_var_FileHandler. next.
  rewrite run_bind, (run_deref_FileHandler _ _ h)
    by (simpl; apply lookup_last). next.
  rewrite run_bind, (run_FileHandler_Filter _ _ _ r) by exact Hr. next.
  replace (Level r <? fh_Level h)%Z with false
    by (symmetry; apply Z.ltb_ge; exact Hl).
  cbv [negb].
  rewrite run_bind, (run_Lock _ _ (fh_mu h));
    [|simpl; rewrite lookup_last; reflexivity|exact Hm]. next.
  rewrite run_defer, run_bind.
  rewrite (run_deref_FileHandler _ _ (fh_with_mu h {| held := true |}))
    by (simpl; rewrite alter_last; apply lookup_last). next.
  rewrite (run_FileHandler_Emit _ _ fn _ r); [|exact Hf|exact Hr]. next.
  rewrite (run_Unlock _ _ {| held := true |}); [reflexivity| |reflexivity].
  destruct (emitted_frame t (fh_Formatter h) (FileWriter (fh_Out h)) p (fn r)
    (log t (EvLock (MuFile (length (file_vars w))))
       (set_mutex (with_file_vars w (file_vars w ++ [h]))
          (MuFile (length (file_vars w))) {| held := true |})))
    as (_ & _ & E & _).
  simpl. etransitivity; [apply f_equal, (f_equal (fun v => v !! _)), E|].
  simpl. rewrite alter_last, lookup_last. reflexivity.
Qed.

(** ** What Handle changes *)

Lemma sh_with_mu_id h :
  held (sh_mu h) = false -> sh_with_mu h {| held := false |} = h.
Proof. destruct h as [? ? ? ? [[]]]; simpl; [discriminate|reflexivity]. Qed.

Lemma fh_with_mu_id h :
  held (fh_mu h) = false -> fh_with_mu h {| held := false |} = h.
Proof. destruct h as [? ? ? ? ? [[]]]; simpl; [discriminate|reflexivity]. Qed.

Lemma sink_contents_set_mutex w m v wr :
  sink_contents (set_mutex w m v) wr = sink_contents w wr.
Proof. destruct m, wr; reflexivity. Qed.

Lemma sink_accepts_set_mutex w m v wr :
  sink_accepts (set_mutex w m v) wr = sink_accepts w wr.
Proof. destruct m, wr; reflexivity. Qed.

Ltac use_emitted_frame :=
  match goal with
  | |- context [emitted ?t ?f ?out ?p ?res ?w] =>
      let E1 := fresh "E1" in let E2 := fresh "E2" in
      let E3 := fresh "E3" in let E4 := fresh "E4" in
      destruct (emitted_frame t f out p res w) as (E1 & E2 & E3 & E4)
  end.

Lemma handled_stream_frame t h p res w :
  records (handled_stream t h p res w) = records w /\
  stream_vars (handled_stream t h p res w) =
    stream_vars w ++ [sh_with_mu h {| held := false |}] /\
  file_vars (handled_stream t h p res w) = file_vars w /\
  trace (handled_stream t h p res w) =
    trace w ++ [(t, EvLock (MuStream (length (stream_vars w))))] ++
    emit_events t (sh_Formatter h) (sh_Out h) p res ++
    [(t, EvUnlock (MuStream (length (stream_vars w))))].
Proof.
  unfold handled_stream. cbv zeta. use_emitted_frame.
  simpl in *. rewrite E1, E2, E3, E4. rewrite !alter_last.
  repeat split; try reflexivity.
  unfold emit_events. destruct res as [msg [e|]]; simpl;
    rewrite <- ?app_assoc; reflexivity.
Qed.

Lemma handled_file_frame t h p res w :
  records (handled_file t h p res w) = records w /\
  stream_vars (handled_file t h p res w) = stream_vars w /\
  file_vars (handled_file t h p res w) =
    file_vars w ++ [fh_with_mu h {| held := false |}] /\
  trace (handled_file t h p res w) =
    trace w ++ [(t, EvLock (MuFile (length (file_vars w))))] ++
    emit_events t (fh_Formatter h) (FileWriter (fh_Out h)) p res ++
    [(t, EvUnlock (MuFile (length (file_vars w))))].
Proof.
  unfold handled_file. cbv zeta. use_emitted_frame.
  simpl in *. rewrite E1, E2, E3, E4. rewrite !alter_last.
  repeat split; try reflexivity.
  unfold emit_events. destruct res as [msg [e|]]; simpl;
    rewrite <- ?app_assoc; reflexivity.
Qed.

Lemma sink_contents_handled_stream t h p res w :
  sink_accepts w (sh_Out h) = true ->
  sink_contents (handled_stream t h p res w) (sh_Out h) =
  sink_contents w (sh_Out h) +:+ diagnostic_in (sh_Out h) res.2 +:+
  res.1 +:+ newline.
Proof.
  intros Ha. unfold handled_stream. cbv zeta.
  rewrite sink_contents_log, sink_contents_set_mutex.
  rewrite sink_contents_emitted
    by (rewrite sink_accepts_log, sink_accepts_set_mutex; destruct (sh_Out h);
        exact Ha).
  rewrite sink_contents_log, sink_contents_set_mutex.
  destruct (sh_Out h); reflexivity.
Qed.

Lemma sink_contents_handled_file t h p res w :
  sink_accepts w (FileWriter (fh_Out h)) = true ->
  sink_contents (handled_file t h p res w) (FileWriter (fh_Out h)) =
  sink_contents w (FileWriter (fh_Out h)) +:+
  diagnostic_in (FileWriter (fh_Out h)) res.2 +:+ res.1 +:+ newline.
Proof.
  intros Ha. unfold handled_file. cbv zeta.
  rewrite sink_contents_log, sink_contents_set_mutex.
  rewrite sink_contents_emitted
    by (rewrite sink_accepts_log, sink_accepts_set_mutex; exact Ha).
  rewrite sink_contents_log, sink_contents_set_mutex. reflexivity.
Qed.

(** ** What no program changes *)

Lemma kept_refl w : kept w w.
Proof.
  repeat split.
  - intros i s H. exists (sh_mu s). rewrite H. now destruct s.
  - intros i f H. exists (fh_mu f). rewrite H. now destruct f.
Qed.

Lemma kept_trans w1 w2 w3 : kept w1 w2 -> kept w2 w3 -> kept w1 w3.
Proof.
  intros (R1 & S1 & F1) (R2 & S2 & F2). repeat split.
  - congruence.
  - intros i s H. destruct (S1 i s H) as [mu1 H1].
    destruct (S2 i _ H1) as [mu2 H2]. exists mu2. exact H2.
  - intros i f H. destruct (F1 i f H) as [mu1 H1].
    destruct (F2 i _ H1) as [mu2 H2]. exists mu2. exact H2.
Qed.

(** Worlds that agree on the heap keep the same things. *)
Lemma kept_same_heap w w1 w2 :
  records w2 = records w1 -> stream_vars w2 = stream_vars w1 ->
  file_vars w2 = file_vars w1 -> kept w w1 -> kept w w2.
Proof.
  intros E1 E2 E3 (R & S & F). unfold kept. rewrite E1, E2, E3. auto.
Qed.

Lemma kept_set_mutex w m v : kept w (set_mutex w m v).
Proof.
  destruct m as [l|l]; repeat split; simpl.
  - intros i s H. destruct (decide (l = i)) as [->|Hne].
    + exists v. rewrite list_lookup_alter_eq, H. reflexivity.
    + exists (sh_mu s). rewrite list_lookup_alter_ne, H by assumption.
      now destruct s.
  - intros i f H. exists (fh_mu f). rewrite H. now destruct f.
  - intros i s H. exists (sh_mu s). rewrite H. now destruct s.
  - intros i f H. destruct (decide (l = i)) as [->|Hne].
    + exists v. rewrite list_lookup_alter_eq, H. reflexivity.
    + exists (fh_mu f). rewrite list_lookup_alter_ne, H by assumption.
      now destruct f.
Qed.

Lemma kept_write_bytes wr data w e w' :
  write_bytes wr data w = Some (e, w') -> kept w w'.
Proof.
  intros H. apply write_bytes_frame in H as (E1 & E2 & E3 & _).
  apply (kept_same_heap w w w'); auto using kept_refl.
Qed.

Ltac same_heap :=
  match goal with
  | |- kept ?w _ => apply (kept_same_heap w w); [reflexivity..|apply kept_refl]
  end.

Lemma exec_kept t o w x w' : exec t o w = Some (x, w') -> kept w w'.
Proof.
  destruct o; simpl.
  - intros [= <- <-]. apply kept_refl.
  - intros [= <- <-]. repeat split; simpl.
    + intros i s0 H. exists (sh_mu s0).
      rewrite (lookup_before_last _ _ _ _ H). now destruct s0.
    + intros i f H. exists (fh_mu f). rewrite H. now destruct f.
  - intros [= <- <-]. apply kept_refl.
  - intros [= <- <-]. repeat split; simpl.
    + intros i s H. exists (sh_mu s). rewrite H. now destruct s.
    + intros i f0 H. exists (fh_mu f0).
      rewrite (lookup_before_last _ _ _ _ H). now destruct f0.
  - intros [= <- <-]. apply kept_refl.
  - destruct (mutex_at w m) as [mu|]; [|intros [= <- <-]; apply kept_refl].
    destruct (held mu); [discriminate|]. intros [= <- <-].
    eapply kept_same_heap; [| | |apply (kept_set_mutex w m)]; reflexivity.
  - destruct (mutex_at w m) as [mu|]; [|intros [= <- <-]; apply kept_refl].
    destruct (held mu); intros [= <- <-]; [|apply kept_refl].
    eapply kept_same_heap; [| | |apply (kept_set_mutex w m)]; reflexivity.
  - destruct (format_of f); intros [= <- <-]; [same_heap|apply kept_refl].
  - destruct (write_bytes w0 text _) as [[e w1]|] eqn:E; intros [= <- <-].
    + apply kept_write_bytes in E.
      eapply kept_trans; [|exact E]. same_heap.
    + same_heap.
  - destruct (write_bytes w0 _ _) as [[e w1]|] eqn:E; intros [= <- <-].
    + apply kept_write_bytes in E.
      eapply kept_trans; [|exact E]. same_heap.
    + same_heap.
  - unfold open_file. simpl.
    destruct (fs_open w name flag perm); intros [= <- <-]; same_heap.
  - unfold close_file. destruct f as [l|]; simpl;
      [|intros [= <- <-]; same_heap].
    destruct (os_files w !! l) as [file|];
      [|intros [= <- <-]; same_heap].
    destruct (f_closed file); intros [= <- <-]; same_heap.
Qed.

(** Whatever a program does and however it ends, it leaves the records
    and the fields of the handlers as they were. *)
Lemma run_kept {A} t (m : Prog A) w : kept w (run t m w).2.
Proof.
  revert w. induction m as [a|v|o k IH]; intros w; simpl;
    try apply kept_refl.
  destruct (exec t o w) as [[x w']|] eqn:E; [|apply kept_refl].
  eapply kept_trans; [eapply exec_kept; exact E | apply IH].
Qed.

(** ** The claims *)

(** C2.  For every record [r] and every handler [h] with a threshold, a
    StreamHandler or a FileHandler, [h.Filter(r)] returns, changes nothing,
    and its result is true if and only if [r.Level < h.Level]. *)
Theorem Filter_true_iff_below_threshold t w p r :
  deref (records w) p = Some r ->
  (forall h : StreamHandler, exists b,
     run t (StreamHandler_Filter h p) w = (Returned b, w) /\
     (b = true <-> (Level r < sh_Level h)%Z)) /\
  (forall h : FileHandler, exists b,
     run t (FileHandler_Filter h p) w = (Returned b, w) /\
     (b = true <-> (Level r < fh_Level h)%Z)).
Proof.
  intros Hr. split; intros h.
  - exists (Level r <? sh_Level h)%Z. split.
    + apply run_StreamHandler_Filter, Hr.
    + apply Z.ltb_lt.
  - exists (Level r <? fh_Level h)%Z. split.
    + apply run_FileHandler_Filter, Hr.
    + apply Z.ltb_lt.
Qed.

(** C5.  For every record pointer, [NullHandler.Handle] returns and leaves
    the world as it was, so that it adds no write and no formatter
    invocation to the events; [NullHandler.Filter] returns true; and
    [NullHandler.Emit] does nothing. *)
Theorem NullHandler_does_nothing t w (h : NullHandler) (p : pointer) :
  run t (NullHandler_Handle h p) w = (Returned tt, w) /\
  writes (trace (run t (NullHandler_Handle h p) w).2) = writes (trace w) /\
  formats (trace (run t (NullHandler_Handle h p) w).2) = formats (trace w) /\
  run t (NullHandler_Filter h p) w = (Returned true, w) /\
  run t (NullHandler_Emit h p) w = (Returned tt, w).
Proof. repeat split. Qed.

(** C8.  [StreamHandler.Close] and [NullHandler.Close] return nil and
    leave the world as it was: the sink is not closed.
    [FileHandler.Close] calls [Close] on its file once, and returns what
    that call returns: for an open file the file system's verdict, with
    the file closed afterwards; for a file already closed, or a nil file,
    the error of [os.File.Close], with nothing changed. *)
Theorem Close_results t w :
  (forall h : StreamHandler,
     run t (StreamHandler_Close h) w = (Returned None, w)) /\
  (forall h : NullHandler,
     run t (NullHandler_Close h) w = (Returned None, w)) /\
  (forall h : FileHandler, exists e w',
     run t (FileHandler_Close h) w = (Returned e, w') /\
     trace w' = trace w ++ [(t, EvClose (fh_Out h))] /\
     (e, w') = close_file (fh_Out h) (log t (EvClose (fh_Out h)) w) /\
     match deref (os_files w) (fh_Out h) with
     | Some f =>
         if f_closed f
         then e = Some (path_error "close" (f_name f) ErrClosed) /\
              os_files w' = os_files w
         else e = fs_close w (f_name f) /\
              f_closed <$> deref (os_files w') (fh_Out h) = Some true
     | None => e = Some ErrInvalid /\ os_files w' = os_files w
     end).
Proof.
  split; [reflexivity|]. split; [reflexivity|]. intros h.
  exists (close_file (fh_Out h) (log t (EvClose (fh_Out h)) w)).1,
         (close_file (fh_Out h) (log t (EvClose (fh_Out h)) w)).2.
  split; [|split; [|split]].
  - simpl. now destruct (close_file _ _).
  - unfold close_file. destruct (fh_Out h) as [l|]; simpl; [|reflexivity].
    destruct (os_files w !! l) as [f|]; [|reflexivity].
    destruct (f_closed f); reflexivity.
  - now destruct (close_file _ _).
  - unfold close_file. destruct (fh_Out h) as [l|]; simpl; [|now split].
    destruct (os_files w !! l) as [f|] eqn:E; [|now split].
    destruct (f_closed f); simpl; [now split|]. split; [reflexivity|].
    rewrite list_lookup_insert_eq by (eapply lookup_lt_Some; exact E).
    reflexivity.
Qed.

Lemma append_empty_r (s : string) : s +:+ "" = s.
Proof.
  induction s as [|c s IH]; [reflexivity|].
  change (String c (s +:+ "") = String c s). now rewrite IH.
Qed.

Lemma Sprintf_can_not_open path :
  fmt_Sprintf "can not open file %s" [path] = "can not open file " +:+ path.
Proof.
  change (fmt_Sprintf "can not open file %s" [path])
    with ("can not open file " +:+ path +:+ "").
  now rewrite append_empty_r.
Qed.

Lemma run_NewFileHandler_refused t w name path e :
  fs_open w path open_flag open_perm = Some e ->
  run t (NewFileHandler name path) w =
  (Panicked ("can not open file " +:+ path),
   log t (EvOpenFile path open_flag open_perm) w).
Proof.
  intros H. unfold NewFileHandler. simpl. unfold open_file. simpl.
  fold open_flag open_perm. rewrite H. simpl.
  now rewrite <- Sprintf_can_not_open.
Qed.

(** The world after [NewFileHandler] when the file opens. *)
Lemma run_NewFileHandler_opened t w name path :
  fs_open w path open_flag open_perm = None ->
  run t (NewFileHandler name path) w =
  (Returned (Some (length (file_vars w))),
   with_file_vars
     (with_os_files (log t (EvOpenFile path open_flag open_perm) w)
        (os_files w ++
           [{| f_name := path; f_flag := open_flag; f_perm := open_perm;
               f_closed := false; f_written := "" |}]))
     (file_vars w ++
        [{| fh_Path := path; fh_Out := Some (length (os_files w));
            fh_Name := name; fh_Level := 0;
            fh_Formatter := DefaultFormatter; fh_mu := unlocked |}])).
Proof.
  intros H. unfold NewFileHandler. simpl. unfold open_file. simpl.
  fold open_flag open_perm. rewrite H. reflexivity.
Qed.

(** C6.  [NewFileHandler] panics with the message "can not open file
    <path>" when the file system refuses to open the file, and then no
    handler and no file object has been made; when the file opens it
    returns a pointer to a handler on the open file.  [NewStreamHandler]
    always returns a handler, and a NullHandler is a composite literal. *)
Theorem constructors_fail_only_when_open_fails t w name path :
  match fs_open w path open_flag open_perm with
  | Some _ =>
      exists w',
        run t (NewFileHandler name path) w =
          (Panicked ("can not open file " +:+ path), w') /\
        file_vars w' = file_vars w /\ os_files w' = os_files w
  | None =>
      exists l h w',
        run t (NewFileHandler name path) w = (Returned (Some l), w') /\
        file_vars w' !! l = Some h /\
        fh_Name h = name /\ fh_Path h = path /\
        sink_accepts w' (FileWriter (fh_Out h)) = true
  end /\
  (exists l h w',
     run t (NewStreamHandler name) w = (Returned (Some l), w') /\
     stream_vars w' !! l = Some h /\ sh_Name h = name) /\
  nh_Name {| nh_Name := name |} = name.
Proof.
  split; [|split; [|reflexivity]].
  - destruct (fs_open w path open_flag open_perm) as [e|] eqn:E.
    + eexists. rewrite (run_NewFileHandler_refused _ _ _ _ e E).
      repeat split.
    + do 3 eexists. rewrite (run_NewFileHandler_opened _ _ _ _ E).
      split; [reflexivity|]. split; [apply lookup_last|].
      split; [reflexivity|]. split; [reflexivity|].
      simpl. rewrite lookup_last. reflexivity.
  - do 3 eexists. split; [reflexivity|]. split; [apply lookup_last|].
    reflexivity.
Qed.

(** C7.  [NewFileHandler] asks for its file once, write-only, in append
    mode, to be created if missing, with no other flag, and with the
    permissions 0660: read and write for the owner and the group, nothing
    else.  A file that opens is held by the handler in that mode. *)
Theorem NewFileHandler_open_mode t w name path :
  trace (run t (NewFileHandler name path) w).2 =
    trace w ++ [(t, EvOpenFile path open_flag open_perm)] /\
  Z.land open_flag O_ACCMODE = O_WRONLY /\
  Z.land open_flag O_APPEND = O_APPEND /\
  Z.land open_flag O_CREATE = O_CREATE /\
  open_flag = (O_WRONLY + O_APPEND + O_CREATE)%Z /\
  open_perm = 432%Z /\
  permission_bits open_perm =
    [true; true; false; true; true; false; false; false; false] /\
  match fs_open w path open_flag open_perm with
  | Some _ => True
  | None =>
      exists l h f,
        (run t (NewFileHandler name path) w).1 = Returned (Some l) /\
        file_vars (run t (NewFileHandler name path) w).2 !! l = Some h /\
        deref (os_files (run t (NewFileHandler name path) w).2) (fh_Out h) =
          Some f /\
        f_name f = path /\ f_flag f = open_flag /\ f_perm f = open_perm /\
        f_closed f = false
  end.
Proof.
  split; [|repeat split].
  - destruct (fs_open w path open_flag open_perm) as [e|] eqn:E.
    + now rewrite (run_NewFileHandler_refused _ _ _ _ e E).
    + now rewrite (run_NewFileHandler_opened _ _ _ _ E).
  - destruct (fs_open w path open_flag open_perm) as [e|] eqn:E; [exact I|].
    rewrite (run_NewFileHandler_opened _ _ _ _ E). do 3 eexists.
    split; [reflexivity|]. split; [apply lookup_last|].
    split; [apply lookup_last|]. repeat split.
Qed.

(** ** Sinks that refuse, and the standard error stream *)

Lemma sink_contents_emitted_refused t f out p res w :
  sink_accepts w out = false ->
  sink_contents (emitted t f out p res w) out = sink_contents w out.
Proof.
  intros Ha. unfold emitted.
  rewrite sink_contents_fprint_refused.
  - destruct res as [msg [e|]]; simpl; [|apply sink_contents_log].
    destruct (decide (out = FileWriter os_Stderr)) as [->|Hne].
    + rewrite sink_contents_fprint_refused
        by (rewrite sink_accepts_log; exact Ha).
      apply sink_contents_log.
    + rewrite sink_contents_fprint_other by assumption.
      apply sink_contents_log.
  - destruct res as [msg [e|]]; simpl;
      rewrite ?sink_accepts_fprint, sink_accepts_log; exact Ha.
Qed.

Lemma sink_contents_emitted_stderr t f out p msg e w :
  out <> FileWriter os_Stderr ->
  sink_accepts w (FileWriter os_Stderr) = true ->
  sink_contents (emitted t f out p (msg, Some e) w) (FileWriter os_Stderr) =
  sink_contents w (FileWriter os_Stderr) +:+ diagnostic e.
Proof.
  intros Hne Ha. unfold emitted. simpl fst. simpl snd. cbv zeta.
  rewrite sink_contents_fprint_other by congruence.
  rewrite sink_contents_fprint_same by (rewrite sink_accepts_log; exact Ha).
  rewrite sink_contents_log. reflexivity.
Qed.

Lemma sink_contents_emitted_sink t f out p res w :
  sink_contents (emitted t f out p res w) out =
  sink_contents w out +:+ line_in w out res.
Proof.
  unfold line_in. destruct (sink_accepts w out) eqn:Ha.
  - apply sink_contents_emitted, Ha.
  - rewrite append_empty_r. apply sink_contents_emitted_refused, Ha.
Qed.

Lemma sink_contents_handled_stream_sink t h p res w :
  sink_contents (handled_stream t h p res w) (sh_Out h) =
  sink_contents w (sh_Out h) +:+ line_in w (sh_Out h) res.
Proof.
  unfold handled_stream. cbv zeta.
  rewrite sink_contents_log, sink_contents_set_mutex.
  rewrite sink_contents_emitted_sink.
  unfold line_in.
  rewrite sink_contents_log, sink_contents_set_mutex.
  rewrite sink_accepts_log, sink_accepts_set_mutex.
  destruct (sh_Out h); reflexivity.
Qed.

Lemma sink_contents_handled_file_sink t h p res w :
  sink_contents (handled_file t h p res w) (FileWriter (fh_Out h)) =
  sink_contents w (FileWriter (fh_Out h)) +:+
  line_in w (FileWriter (fh_Out h)) res.
Proof.
  unfold handled_file. cbv zeta.
  rewrite sink_contents_log, sink_contents_set_mutex.
  rewrite sink_contents_emitted_sink.
  unfold line_in.
  rewrite sink_contents_log, sink_contents_set_mutex.
  rewrite sink_accepts_log, sink_accepts_set_mutex. reflexivity.
Qed.

(** ** The events of Emit *)

Lemma formats_emit_events t f out p res :
  formats (emit_events t f out p res) = [(t, EvFormat f p)].
Proof. destruct res as [msg [e|]]; reflexivity. Qed.

Lemma lines_to_emit_events t f out p res :
  lines_to out (emit_events t f out p res) = [res.1].
Proof.
  destruct res as [msg [e|]]; simpl; now rewrite decide_True.
Qed.

Lemma diagnostics_emit_events t f out p msg e :
  diagnostics (emit_events t f out p (msg, Some e)) = [diagnostic e].
Proof. reflexivity. Qed.

Lemma diagnostics_emit_events_none t f out p msg :
  diagnostics (emit_events t f out p (msg, None)) = [].
Proof. reflexivity. Qed.

Lemma formats_app tr1 tr2 : formats (tr1 ++ tr2) = formats tr1 ++ formats tr2.
Proof. apply List.filter_app. Qed.

Lemma lines_to_app out tr1 tr2 :
  lines_to out (tr1 ++ tr2) = lines_to out tr1 ++ lines_to out tr2.
Proof.
  induction tr1 as [|[t e] tr1 IH]; [reflexivity|].
  destruct e; simpl; try exact IH.
  destruct (decide (w = out)); simpl; now rewrite IH.
Qed.

Lemma diagnostics_app tr1 tr2 :
  diagnostics (tr1 ++ tr2) = diagnostics tr1 ++ diagnostics tr2.
Proof.
  induction tr1 as [|[t e] tr1 IH]; [reflexivity|].
  destruct e; simpl; try exact IH.
  destruct (decide (w = FileWriter os_Stderr)); simpl; now rewrite IH.
Qed.

Lemma formats_handle_events t m f out p res :
  formats (handle_events t m f out p res) = [(t, EvFormat f p)].
Proof. destruct res as [msg [e|]]; reflexivity. Qed.

Lemma lines_to_handle_events t m f out p res :
  lines_to out (handle_events t m f out p res) = [res.1].
Proof.
  destruct res as [msg [e|]]; simpl; now rewrite decide_True.
Qed.

Lemma diagnostics_handle_events t m f out p msg e :
  diagnostics (handle_events t m f out p (msg, Some e)) = [diagnostic e].
Proof. reflexivity. Qed.

(** C3.  Take a handler with a formatter, a sink that can be called and a
    mutex that is not held, and a record [r].  One call of [Handle]
    returns.  When [r.Level] is below the threshold it causes no event, so
    no formatter call and no write, and every sink holds what it held.
    Otherwise the formatter is called once and one line, the text the
    formatter returned, is printed on the sink with [Fprintln]; a sink that
    takes the bytes then holds that text and one newline more (after the
    diagnostic, when the formatter failed and the sink is the standard
    error stream itself). *)
Theorem Handle_prints_one_line_from_threshold_up t w p r :
  deref (records w) p = Some r ->
  (forall (h : StreamHandler) fn,
     format_of (sh_Formatter h) = Some fn ->
     held (sh_mu h) = false ->
     sink_callable w (sh_Out h) = true ->
     exists w' evs,
       run t (StreamHandler_Handle h p) w = (Returned tt, w') /\
       trace w' = trace w ++ evs /\
       (((Level r < sh_Level h)%Z /\ evs = [] /\
         forall wr, sink_contents w' wr = sink_contents w wr) \/
        ((sh_Level h <= Level r)%Z /\
         formats evs = [(t, EvFormat (sh_Formatter h) p)] /\
         lines_to (sh_Out h) evs = [(fn r).1] /\
         sink_contents w' (sh_Out h) =
           sink_contents w (sh_Out h) +:+
           (if sink_accepts w (sh_Out h)
            then diagnostic_in (sh_Out h) (fn r).2 +:+ (fn r).1 +:+ newline
            else "")))) /\
  (forall (h : FileHandler) fn,
     format_of (fh_Formatter h) = Some fn ->
     held (fh_mu h) = false ->
     exists w' evs,
       run t (FileHandler_Handle h p) w = (Returned tt, w') /\
       trace w' = trace w ++ evs /\
       (((Level r < fh_Level h)%Z /\ evs = [] /\
         forall wr, sink_contents w' wr = sink_contents w wr) \/
        ((fh_Level h <= Level r)%Z /\
         formats evs = [(t, EvFormat (fh_Formatter h) p)] /\
         lines_to (FileWriter (fh_Out h)) evs = [(fn r).1] /\
         sink_contents w' (FileWriter (fh_Out h)) =
           sink_contents w (FileWriter (fh_Out h)) +:+
           (if sink_accepts w (FileWriter (fh_Out h))
            then diagnostic_in (FileWriter (fh_Out h)) (fn r).2 +:+
                 (fn r).1 +:+ newline
            else "")))).
Proof.
  intros Hr. split.
  - intros h fn Hf Hm Hc.
    destruct (Z.lt_ge_cases (Level r) (sh_Level h)) as [Hl|Hl].
    + exists (with_stream_vars w (stream_vars w ++ [h])), [].
      split; [apply (run_StreamHandler_Handle_suppress t h p r w Hr Hl)|].
      split; [simpl; now rewrite app_nil_r|].
      left. split; [exact Hl|]. split; [reflexivity|].
      intros []; reflexivity.
    + exists (handled_stream t h p (fn r) w),
        (handle_events t (MuStream (length (stream_vars w)))
           (sh_Formatter h) (sh_Out h) p (fn r)).
      rewrite (run_StreamHandler_Handle_emit _ _ fn _ r) by assumption.
      rewrite Hc. split; [reflexivity|].
      split; [apply handled_stream_frame|]. right.
      split; [exact Hl|]. split; [apply formats_handle_events|].
      split; [apply lines_to_handle_events|].
      apply sink_contents_handled_stream_sink.
  - intros h fn Hf Hm.
    destruct (Z.lt_ge_cases (Level r) (fh_Level h)) as [Hl|Hl].
    + exists (with_file_vars w (file_vars w ++ [h])), [].
      split; [apply (run_FileHandler_Handle_suppress t h p r w Hr Hl)|].
      split; [simpl; now rewrite app_nil_r|].
      left. split; [exact Hl|]. split; [reflexivity|].
      intros []; reflexivity.
    + exists (handled_file t h p (fn r) w),
        (handle_events t (MuFile (length (file_vars w)))
           (fh_Formatter h) (FileWriter (fh_Out h)) p (fn r)).
      rewrite (run_FileHandler_Handle_emit _ _ fn _ r) by assumption.
      split; [reflexivity|].
      split; [apply handled_file_frame|]. right.
      split; [exact Hl|]. split; [apply formats_handle_events|].
      split; [apply lines_to_handle_events|].
      apply sink_contents_handled_file_sink.
Qed.

Lemma sink_contents_handled_stream_stderr t h p msg e w :
  sh_Out h <> FileWriter os_Stderr ->
  sink_accepts w (FileWriter os_Stderr) = true ->
  sink_contents (handled_stream t h p (msg, Some e) w) (FileWriter os_Stderr) =
  sink_contents w (FileWriter os_Stderr) +:+ diagnostic e.
Proof.
  intros Hne Ha. unfold handled_stream. cbv zeta.
  rewrite sink_contents_log, sink_contents_set_mutex.
  now rewrite sink_contents_emitted_stderr.
Qed.

Lemma sink_contents_handled_file_stderr t h p msg e w :
  fh_Out h <> os_Stderr ->
  sink_accepts w (FileWriter os_Stderr) = true ->
  sink_contents (handled_file t h p (msg, Some e) w) (FileWriter os_Stderr) =
  sink_contents w (FileWriter os_Stderr) +:+ diagnostic e.
Proof.
  intros Hne Ha. unfold handled_file. cbv zeta.
  rewrite sink_contents_log, sink_contents_set_mutex.
  rewrite sink_contents_emitted_stderr; [reflexivity|congruence|exact Ha].
Qed.

(** C4.  Let the formatter of a handler return the text [msg] and the
    error [e] for the record.  [Emit] then returns as usual, and so does
    [Handle] when the record is not suppressed: the error does not reach
    the caller.  Exactly one diagnostic, "Format record failed, [e]", is
    printed on the standard error stream, and the line [msg] is printed on
    the sink all the same.  The standard error stream, when it is not the
    sink, holds the diagnostic afterwards, and the sink the line. *)
Theorem formatter_error_is_reported_not_returned t w p r msg e :
  deref (records w) p = Some r ->
  (forall (h : StreamHandler) fn,
     format_of (sh_Formatter h) = Some fn ->
     fn r = (msg, Some e) ->
     sink_callable w (sh_Out h) = true ->
     (exists w',
        run t (StreamHandler_Emit h p) w = (Returned tt, w') /\
        reported_and_printed (sh_Out h) msg e w w') /\
     (held (sh_mu h) = false -> (sh_Level h <= Level r)%Z ->
      exists w',
        run t (StreamHandler_Handle h p) w = (Returned tt, w') /\
        reported_and_printed (sh_Out h) msg e w w')) /\
  (forall (h : FileHandler) fn,
     format_of (fh_Formatter h) = Some fn ->
     fn r = (msg, Some e) ->
     (exists w',
        run t (FileHandler_Emit h p) w = (Returned tt, w') /\
        reported_and_printed (FileWriter (fh_Out h)) msg e w w') /\
     (held (fh_mu h) = false -> (fh_Level h <= Level r)%Z ->
      exists w',
        run t (FileHandler_Handle h p) w = (Returned tt, w') /\
        reported_and_printed (FileWriter (fh_Out h)) msg e w w')).
Proof.
  intros Hr. split.
  - intros h fn Hf Hres Hc. split.
    + exists (emitted t (sh_Formatter h) (sh_Out h) p (msg, Some e) w).
      rewrite (run_StreamHandler_Emit _ _ fn _ r), Hc, Hres by assumption.
      split; [reflexivity|].
      exists (emit_events t (sh_Formatter h) (sh_Out h) p (msg, Some e)).
      split; [apply emitted_frame|]. split; [reflexivity|].
      split; [apply (lines_to_emit_events _ _ _ _ (msg, Some e))|].
      split; [apply sink_contents_emitted_sink|].
      intros Hne Ha. now apply sink_contents_emitted_stderr.
    + intros Hm Hl. exists (handled_stream t h p (msg, Some e) w).
      rewrite (run_StreamHandler_Handle_emit _ _ fn _ r), Hc, Hres
        by assumption.
      split; [reflexivity|].
      exists (handle_events t (MuStream (length (stream_vars w)))
                (sh_Formatter h) (sh_Out h) p (msg, Some e)).
      split; [apply handled_stream_frame|]. split; [reflexivity|].
      split; [apply (lines_to_handle_events _ _ _ _ _ (msg, Some e))|].
      split; [apply sink_contents_handled_stream_sink|].
      intros Hne Ha. now apply sink_contents_handled_stream_stderr.
  - intros h fn Hf Hres. split.
    + exists
        (emitted t (fh_Formatter h) (FileWriter (fh_Out h)) p (msg, Some e) w).
      rewrite (run_FileHandler_Emit _ _ fn _ r), Hres by assumption.
      split; [reflexivity|].
      exists (emit_events t (fh_Formatter h) (FileWriter (fh_Out h)) p
                (msg, Some e)).
      split; [apply emitted_frame|]. split; [reflexivity|].
      split; [apply (lines_to_emit_events _ _ _ _ (msg, Some e))|].
      split; [apply sink_contents_emitted_sink|].
      intros Hne Ha. now apply sink_contents_emitted_stderr.
    + intros Hm Hl. exists (handled_file t h p (msg, Some e) w).
      rewrite (run_FileHandler_Handle_emit _ _ fn _ r), Hres by assumption.
      split; [reflexivity|].
      exists (handle_events t (MuFile (length (file_vars w)))
                (fh_Formatter h) (FileWriter (fh_Out h)) p (msg, Some e)).
      split; [apply handled_file_frame|]. split; [reflexivity|].
      split; [apply (lines_to_handle_events _ _ _ _ _ (msg, Some e))|].
      split; [apply sink_contents_handled_file_sink|].
      intros Hne Ha. apply sink_contents_handled_file_stderr; congruence.
Qed.

(** ** Calls through the pointer, one after the other *)

Lemma sink_callable_set_mutex w m v wr :
  sink_callable (set_mutex w m v) wr = sink_callable w wr.
Proof. destruct m, wr; reflexivity. Qed.

Lemma sink_callable_emitted t f out p res w wr :
  sink_callable (emitted t f out p res w) wr = sink_callable w wr.
Proof.
  unfold emitted. destruct res as [msg [e|]]; simpl;
    rewrite ?sink_callable_fprint, ?sink_callable_log; reflexivity.
Qed.

Lemma sink_callable_handled_stream t h p res w wr :
  sink_callable (handled_stream t h p res w) wr = sink_callable w wr.
Proof.
  unfold handled_stream. cbv zeta.
  rewrite sink_callable_log, sink_callable_set_mutex, sink_callable_emitted,
    sink_callable_log, sink_callable_set_mutex.
  destruct wr; reflexivity.
Qed.

Lemma sink_accepts_handled_stream t h p res w wr :
  sink_accepts (handled_stream t h p res w) wr = sink_accepts w wr.
Proof.
  unfold handled_stream. cbv zeta.
  rewrite sink_accepts_log, sink_accepts_set_mutex, sink_accepts_emitted,
    sink_accepts_log, sink_accepts_set_mutex.
  destruct wr; reflexivity.
Qed.

Lemma sink_accepts_handled_file t h p res w wr :
  sink_accepts (handled_file t h p res w) wr = sink_accepts w wr.
Proof.
  unfold handled_file. cbv zeta.
  rewrite sink_accepts_log, sink_accepts_set_mutex, sink_accepts_emitted,
    sink_accepts_log, sink_accepts_set_mutex.
  destruct wr; reflexivity.
Qed.

(** An unsuppressed [Handle] called on the pointer [hp] leaves the struct
    at [hp] as it was, mutex included: what it locks is its own copy. *)
Lemma run_StreamHandler_ptr_Handle_emit t hp h fn p r w :
  deref (stream_vars w) hp = Some h ->
  deref (records w) p = Some r ->
  format_of (sh_Formatter h) = Some fn ->
  held (sh_mu h) = false ->
  sink_callable w (sh_Out h) = true ->
  (sh_Level h <= Level r)%Z ->
  run t (StreamHandler_ptr_Handle hp p) w =
    (Returned tt, handled_stream t h p (fn r) w) /\
  deref (stream_vars (handled_stream t h p (fn r) w)) hp = Some h /\
  stream_vars (handled_stream t h p (fn r) w) = stream_vars w ++ [h].
Proof.
  intros Hh Hr Hf Hm Hc Hl. unfold StreamHandler_ptr_Handle.
  rewrite run_bind, (run_deref_StreamHandler _ _ h) by assumption. next.
  rewrite (run_StreamHandler_Handle_emit _ _ fn _ r), Hc by assumption.
  destruct (handled_stream_frame t h p (fn r) w) as (_ & E & _).
  rewrite sh_with_mu_id in E by assumption.
  split; [reflexivity|]. split; [|exact E].
  rewrite E. destruct hp as [l|]; [|discriminate]. simpl in *.
  now apply lookup_before_last.
Qed.

Lemma run_FileHandler_ptr_Handle_emit t hp h fn p r w :
  deref (file_vars w) hp = Some h ->
  deref (records w) p = Some r ->
  format_of (fh_Formatter h) = Some fn ->
  held (fh_mu h) = false ->
  (fh_Level h <= Level r)%Z ->
  run t (FileHandler_ptr_Handle hp p) w =
    (Returned tt, handled_file t h p (fn r) w) /\
  deref (file_vars (handled_file t h p (fn r) w)) hp = Some h /\
  file_vars (handled_file t h p (fn r) w) = file_vars w ++ [h].
Proof.
  intros Hh Hr Hf Hm Hl. unfold FileHandler_ptr_Handle.
  rewrite run_bind, (run_deref_FileHandler _ _ h) by assumption. next.
  rewrite (run_FileHandler_Handle_emit _ _ fn _ r) by assumption.
  destruct (handled_file_frame t h p (fn r) w) as (_ & _ & E & _).
  rewrite fh_with_mu_id in E by assumption.
  split; [reflexivity|]. split; [|exact E].
  rewrite E. destruct hp as [l|]; [|discriminate]. simpl in *.
  now apply lookup_before_last.
Qed.

Lemma handled_stream_one_more_line t h p res w :
  one_more_line (sh_Out h) res w (handled_stream t h p res w).
Proof.
  destruct (handled_stream_frame t h p res w) as (E & _ & _ & T).
  split; [exact E|]. split; [|split].
  - eexists. split; [exact T|]. apply lines_to_handle_events.
  - apply sink_accepts_handled_stream.
  - apply sink_contents_handled_stream_sink.
Qed.

Lemma handled_file_one_more_line t h p res w :
  one_more_line (FileWriter (fh_Out h)) res w (handled_file t h p res w).
Proof.
  destruct (handled_file_frame t h p res w) as (E & _ & _ & T).
  split; [exact E|]. split; [|split].
  - eexists. split; [exact T|]. apply lines_to_handle_events.
  - apply sink_accepts_handled_file.
  - apply sink_contents_handled_file_sink.
Qed.

(** C10.  Whatever the handler and the record pointer, and however the
    call ends, [Handle], [Filter] and [Emit] leave every record as it was,
    and every field of every handler other than the state of a mutex
    ([kept]).  Two calls of [Handle] in a row through the pointer to a
    handler, with a record that is not suppressed, both return; after each
    of them no record has changed and the struct of the handler is what it
    was, mutex included; and each call prints the line once more: a sink
    that takes the bytes grows by the line at each call
    ([one_more_line]). *)
Theorem Handle_repeats_the_line_and_changes_nothing_else t w p :
  (forall h : NullHandler,
     kept w (run t (NullHandler_Handle h p) w).2 /\
     kept w (run t (NullHandler_Filter h p) w).2 /\
     kept w (run t (NullHandler_Emit h p) w).2) /\
  (forall h : StreamHandler,
     kept w (run t (StreamHandler_Handle h p) w).2 /\
     kept w (run t (StreamHandler_Filter h p) w).2 /\
     kept w (run t (StreamHandler_Emit h p) w).2) /\
  (forall h : FileHandler,
     kept w (run t (FileHandler_Handle h p) w).2 /\
     kept w (run t (FileHandler_Filter h p) w).2 /\
     kept w (run t (FileHandler_Emit h p) w).2) /\
  (forall hp h r fn,
     deref (stream_vars w) hp = Some h ->
     deref (records w) p = Some r ->
     format_of (sh_Formatter h) = Some fn ->
     held (sh_mu h) = false ->
     sink_callable w (sh_Out h) = true ->
     (sh_Level h <= Level r)%Z ->
     exists w1 w2,
       run t (StreamHandler_ptr_Handle hp p) w = (Returned tt, w1) /\
       run t (StreamHandler_ptr_Handle hp p) w1 = (Returned tt, w2) /\
       deref (stream_vars w1) hp = Some h /\
       deref (stream_vars w2) hp = Some h /\
       one_more_line (sh_Out h) (fn r) w w1 /\
       one_more_line (sh_Out h) (fn r) w1 w2) /\
  (forall hp h r fn,
     deref (file_vars w) hp = Some h ->
     deref (records w) p = Some r ->
     format_of (fh_Formatter h) = Some fn ->
     held (fh_mu h) = false ->
     (fh_Level h <= Level r)%Z ->
     exists w1 w2,
       run t (FileHandler_ptr_Handle hp p) w = (Returned tt, w1) /\
       run t (FileHandler_ptr_Handle hp p) w1 = (Returned tt, w2) /\
       deref (file_vars w1) hp = Some h /\
       deref (file_vars w2) hp = Some h /\
       one_more_line (FileWriter (fh_Out h)) (fn r) w w1 /\
       one_more_line (FileWriter (fh_Out h)) (fn r) w1 w2).
Proof.
  split; [|split; [|split; [|split]]].
  - intros h. repeat split; apply kept_refl.
  - intros h. repeat apply conj; apply run_kept.
  - intros h. repeat apply conj; apply run_kept.
  - intros hp h r fn Hh Hr Hf Hm Hc Hl.
    destruct (run_StreamHandler_ptr_Handle_emit t hp h fn p r w)
      as (R1 & H1 & V1); try assumption.
    set (w1 := handled_stream t h p (fn r) w) in *.
    assert (Hr1 : deref (records w1) p = Some r).
    { unfold w1. destruct (handled_stream_frame t h p (fn r) w) as (E & _).
      now rewrite E. }
    assert (Hc1 : sink_callable w1 (sh_Out h) = true).
    { unfold w1. now rewrite sink_callable_handled_stream. }
    destruct (run_StreamHandler_ptr_Handle_emit t hp h fn p r w1)
      as (R2 & H2 & V2); try assumption.
    exists w1, (handled_stream t h p (fn r) w1).
    split; [exact R1|]. split; [exact R2|]. split; [exact H1|].
    split; [exact H2|]. split; apply handled_stream_one_more_line.
  - intros hp h r fn Hh Hr Hf Hm Hl.
    destruct (run_FileHandler_ptr_Handle_emit t hp h fn p r w)
      as (R1 & H1 & V1); try assumption.
    set (w1 := handled_file t h p (fn r) w) in *.
    assert (Hr1 : deref (records w1) p = Some r).
    { unfold w1. destruct (handled_file_frame t h p (fn r) w) as (E & _).
      now rewrite E. }
    destruct (run_FileHandler_ptr_Handle_emit t hp h fn p r w1)
      as (R2 & H2 & V2); try assumption.
    exists w1, (handled_file t h p (fn r) w1).
    split; [exact R1|]. split; [exact R2|]. split; [exact H1|].
    split; [exact H2|]. split; apply handled_file_one_more_line.
Qed.

(** C9, as amended.  [NewStreamHandler] returns a handler with threshold 0,
    the standard error stream as its sink and the terminal formatter;
    [NewFileHandler], when the file opens, one with threshold 0 and the
    default formatter, which is not the terminal one.  With threshold 0 a
    handler lets every record pass whose level is 0 or more, and suppresses
    the records with a negative level. *)
Theorem constructor_defaults t w name path :
  fs_open w path open_flag open_perm = None ->
  (exists l h w',
     run t (NewStreamHandler name) w = (Returned (Some l), w') /\
     stream_vars w' !! l = Some h /\
     sh_Level h = 0%Z /\
     sh_Out h = FileWriter os_Stderr /\
     sh_Formatter h = TerminalFormatter /\
     held (sh_mu h) = false /\
     forall p r, deref (records w') p = Some r ->
       run t (StreamHandler_Filter h p) w' =
       (Returned (negb (0 <=? Level r)%Z), w')) /\
  (exists l h w',
     run t (NewFileHandler name path) w = (Returned (Some l), w') /\
     file_vars w' !! l = Some h /\
     fh_Level h = 0%Z /\
     fh_Formatter h = DefaultFormatter /\
     DefaultFormatter <> TerminalFormatter /\
     held (fh_mu h) = false /\
     forall p r, deref (records w') p = Some r ->
       run t (FileHandler_Filter h p) w' =
       (Returned (negb (0 <=? Level r)%Z), w')).
Proof.
  intros Hopen. split.
  - do 3 eexists. split; [reflexivity|]. split; [apply lookup_last|].
    repeat split. intros p r Hr.
    rewrite (run_StreamHandler_Filter _ _ _ r) by exact Hr. simpl.
    now rewrite Z.ltb_antisym.
  - do 3 eexists. rewrite (run_NewFileHandler_opened _ _ _ _ Hopen).
    split; [reflexivity|]. split; [apply lookup_last|].
    repeat split; [discriminate|]. intros p r Hr.
    rewrite (run_FileHandler_Filter _ _ _ r) by exact Hr. simpl.
    now rewrite Z.ltb_antisym.
Qed.

(** ** Goroutines and the mutex *)

(** A goroutine that calls [Lock] on a held mutex cannot move. *)
Lemma Lock_waits_while_held t m mu w :
  mutex_at w m = Some mu -> held mu = true -> exec t (OpLock m) w = None.
Proof. intros H1 H2. simpl. now rewrite H1, H2. Qed.

Lemma go_step_in_pool t c c' : go_step t c = Some c' -> t < length c.1.
Proof.
  unfold go_step. destruct (c.1 !! t) as [p|] eqn:E; [|discriminate].
  intros _. eapply lookup_lt_Some. exact E.
Qed.

(** [never_overlaps] speaks for every schedule. *)
Lemma never_overlaps_sound fuel c :
  never_overlaps fuel c = true ->
  forall sched c', run_schedule sched c = Some c' ->
    emits_overlap None (trace c'.2) = false.
Proof.
  revert c. induction fuel as [|n IH]; intros c H sched c' Hrun;
    simpl in H; apply andb_true_iff in H as [H0 H];
    apply negb_true_iff in H0; rewrite forallb_forall in H.
  - destruct sched as [|t rest]; simpl in Hrun; [now inversion Hrun; subst|].
    destruct (go_step t c) as [c1|] eqn:E; [|discriminate].
    specialize (H t). rewrite E in H.
    assert (In t (seq 0 (length c.1)))
      by (apply in_seq; split; [lia|]; now apply go_step_in_pool in E).
    now apply H in H1.
  - destruct sched as [|t rest]; simpl in Hrun; [now inversion Hrun; subst|].
    destruct (go_step t c) as [c1|] eqn:E; [|discriminate].
    specialize (H t). rewrite E in H.
    assert (In t (seq 0 (length c.1)))
      by (apply in_seq; split; [lia|]; now apply go_step_in_pool in E).
    eapply IH; [apply H; assumption | exact Hrun].
Qed.

(** * Further properties of handler.go *)

(** ** The ways Handle can fail *)

Lemma run_Format_nil t f p w :
  format_of f = None ->
  run t (Formatter_Format f p) w = (Panicked nil_dereference, w).
Proof. intros H. simpl. rewrite H. reflexivity. Qed.

Lemma run_StreamHandler_Filter_nil t h p w :
  deref (records w) p = None ->
  run t (StreamHandler_Filter h p) w = (Panicked nil_dereference, w).
Proof.
  intros H. unfold StreamHandler_Filter.
  now rewrite run_bind, run_deref_record_nil.
Qed.

Lemma run_FileHandler_Filter_nil t h p w :
  deref (records w) p = None ->
  run t (FileHandler_Filter h p) w = (Panicked nil_dereference, w).
Proof.
  intros H. unfold FileHandler_Filter.
  now rewrite run_bind, run_deref_record_nil.
Qed.

Lemma run_StreamHandler_Handle_nil_record t h p w :
  deref (records w) p = None ->
  run t (StreamHandler_Handle h p) w =
  (Panicked nil_dereference, with_stream_vars w (stream_vars w ++ [h])).
Proof.
  intros Hr. unfold StreamHandler_Handle.
  rewrite run_bind, run_var_StreamHandler. next.
  rewrite run_bind, (run_deref_StreamHandler _ _ h)
    by (simpl; apply lookup_last). next.
  now rewrite run_bind, run_StreamHandler_Filter_nil.
Qed.

Lemma run_FileHandler_Handle_nil_record t h p w :
  deref (records w) p = None ->
  run t (FileHandler_Handle h p) w =
  (Panicked nil_dereference, with_file_vars w (file_vars w ++ [h])).
Proof.
  intros Hr. unfold FileHandler_Handle.
  rewrite run_bind, run_var_FileHandler. next.
  rewrite run_bind, (run_deref_FileHandler _ _ h)
    by (simpl; apply lookup_last). next.
  now rewrite run_bind, run_FileHandler_Filter_nil.
Qed.

Lemma run_StreamHandler_Handle_held t h p r w :
  deref (records w) p = Some r ->
  (sh_Level h <= Level r)%Z ->
  held (sh_mu h) = true ->
  run t (StreamHandler_Handle h p) w =
  (Blocked, with_stream_vars w (stream_vars w ++ [h])).
Proof.
  intros Hr Hl Hm. unfold StreamHandler_Handle.
  rewrite run_bind, run_var_StreamHandler. next.
  rewrite run_bind, (run_deref_StreamHandler _ _ h)
    by (simpl; apply lookup_last). next.
  rewrite run_bind, (run_StreamHandler_Filter _ _ _ r) by exact Hr. next.
  replace (Level r <? sh_Level h)%Z with false
    by (symmetry; apply Z.ltb_ge; exact Hl).
  cbv [negb].
  rewrite run_bind, (run_Lock_held _ _ (sh_mu h));
    [reflexivity|simpl; rewrite lookup_last; reflexivity|exact Hm].
Qed.

Lemma run_FileHandler_Handle_held t h p r w :
  deref (records w) p = Some r ->
  (fh_Level h <= Level r)%Z ->
  held (fh_mu h) = true ->
  run t (FileHandler_Handle h p) w =
  (Blocked, with_file_vars w (file_vars w ++ [h])).
Proof.
  intros Hr Hl Hm. unfold FileHandler_Handle.
  rewrite run_bind, run_var_FileHandler. next.
  rewrite run_bind, (run_deref_FileHandler _ _ h)
    by (simpl; apply lookup_last). next.
  rewrite run_bind, (run_FileHandler_Filter _ _ _ r) by exact Hr. next.
  replace (Level r <? fh_Level h)%Z with false
    by (symmetry; apply Z.ltb_ge; exact Hl).
  cbv [negb].
  rewrite run_bind, (run_Lock_held _ _ (fh_mu h));
    [reflexivity|simpl; rewrite lookup_last; reflexivity|exact Hm].
Qed.

(** The world after [Handle] has locked the mutex of its receiver and
    unlocked it again, the call of a nil formatter in between. *)
Lemma run_StreamHandler_Handle_nil_formatter t h p r w :
  deref (records w) p = Some r ->
  (sh_Level h <= Level r)%Z ->
  held (sh_mu h) = false ->
  format_of (sh_Formatter h) = None ->
  run t (StreamHandler_Handle h p) w =
  (Panicked nil_dereference,
   with_trace (with_stream_vars w (stream_vars w ++ [h]))
     (trace w ++ [(t, EvLock (MuStream (length (stream_vars w))));
                  (t, EvUnlock (MuStream (length (stream_vars w))))])).
Proof.
  intros Hr Hl Hm Hf. unfold StreamHandler_Handle.
  rewrite run_bind, run_var_StreamHandler. next.
  rewrite run_bind, (run_deref_StreamHandler _ _ h)
    by (simpl; apply lookup_last). next.
  rewrite run_bind, (run_StreamHandler_Filter _ _ _ r) by exact Hr. next.
  replace (Level r <? sh_Level h)%Z with false
    by (symmetry; apply Z.ltb_ge; exact Hl).
  cbv [negb].
  rewrite run_bind, (run_Lock _ _ (sh_mu h));
    [|simpl; rewrite lookup_last; reflexivity|exact Hm]. next.
  rewrite run_defer, run_bind.
  rewrite (run_deref_StreamHandler _ _ (sh_with_mu h {| held := true |}))
    by (simpl; rewrite alter_last; apply lookup_last). next.
  unfold StreamHandler_Emit. rewrite run_bind, run_Format_nil by exact Hf.
  next.
  rewrite (run_Unlock _ _ {| held := true |});
    [|simpl; rewrite alter_last, lookup_last; reflexivity|reflexivity].
  simpl. rewrite !alter_last. simpl.
  change (sh_with_mu (sh_with_mu h {| held := true |}) {| held := false |})
    with (sh_with_mu h {| held := false |}).
  rewrite sh_with_mu_id by exact Hm.
  unfold log, with_trace, with_stream_vars. simpl.
  rewrite <- app_assoc. reflexivity.
Qed.

Lemma run_FileHandler_Handle_nil_formatter t h p r w :
  deref (records w) p = Some r ->
  (fh_Level h <= Level r)%Z ->
  held (fh_mu h) = false ->
  format_of (fh_Formatter h) = None ->
  run t (FileHandler_Handle h p) w =
  (Panicked nil_dereference,
   with_trace (with_file_vars w (file_vars w ++ [h]))
     (trace w ++ [(t, EvLock (MuFile (length (file_vars w))));
                  (t, EvUnlock (MuFile (length (file_vars w))))])).
Proof.
  intros Hr Hl Hm Hf. unfold FileHandler_Handle.
  rewrite run_bind, run_var_FileHandler. next.
  rewrite run_bind, (run_deref_FileHandler _ _ h)
    by (simpl; apply lookup_last). next.
  rewrite run_bind, (run_FileHandler_Filter _ _ _ r) by exact Hr. next.
  replace (Level r <? fh_Level h)%Z with false
    by (symmetry; apply Z.ltb_ge; exact Hl).
  cbv [negb].
  rewrite run_bind, (run_Lock _ _ (fh_mu h));
    [|simpl; rewrite lookup_last; reflexivity|exact Hm]. next.
  rewrite run_defer, run_bind.
  rewrite (run_deref_FileHandler _ _ (fh_with_mu h {| held := true |}))
    by (simpl; rewrite alter_last; apply lookup_last). next.
  unfold FileHandler_Emit. rewrite run_bind, run_Format_nil by exact Hf.
  next.
  rewrite (run_Unlock _ _ {| held := true |});
    [|simpl; rewrite alter_last, lookup_last; reflexivity|reflexivity].
  simpl. rewrite !alter_last. simpl.
  change (fh_with_mu (fh_with_mu h {| held := true |}) {| held := false |})
    with (fh_with_mu h {| held := false |}).
  rewrite fh_with_mu_id by exact Hm.
  unfold log, with_trace, with_file_vars. simpl.
  rewrite <- app_assoc. reflexivity.
Qed.

(** X1.  On a nil record pointer [Filter] and [Handle] of a StreamHandler
    and of a FileHandler panic with a nil dereference, before any lock is
    taken, the formatter called or anything printed; [NullHandler] takes
    the nil pointer without harm. *)
Theorem nil_record_panics_before_any_effect t w p :
  deref (records w) p = None ->
  (forall h : StreamHandler,
     run t (StreamHandler_Filter h p) w = (Panicked nil_dereference, w) /\
     exists w',
       run t (StreamHandler_Handle h p) w = (Panicked nil_dereference, w') /\
       trace w' = trace w /\
       forall wr, sink_contents w' wr = sink_contents w wr) /\
  (forall h : FileHandler,
     run t (FileHandler_Filter h p) w = (Panicked nil_dereference, w) /\
     exists w',
       run t (FileHandler_Handle h p) w = (Panicked nil_dereference, w') /\
       trace w' = trace w /\
       forall wr, sink_contents w' wr = sink_contents w wr) /\
  (forall h : NullHandler,
     run t (NullHandler_Filter h p) w = (Returned true, w) /\
     run t (NullHandler_Handle h p) w = (Returned tt, w)).
Proof.
  intros Hr. split; [|split].
  - intros h. split; [now apply run_StreamHandler_Filter_nil|].
    eexists. rewrite run_StreamHandler_Handle_nil_record by exact Hr.
    split; [reflexivity|]. split; [reflexivity|]. intros []; reflexivity.
  - intros h. split; [now apply run_FileHandler_Filter_nil|].
    eexists. rewrite run_FileHandler_Handle_nil_record by exact Hr.
    split; [reflexivity|]. split; [reflexivity|]. intros []; reflexivity.
  - intros h. split; reflexivity.
Qed.

(** X2.  When [Emit] panics inside [Handle], because the formatter is the
    nil interface or the sink of a StreamHandler cannot be called, the
    panic reaches the caller of [Handle], but the deferred [Unlock] has
    run: the last event is the unlock of the mutex that was locked, and
    the receiver variable is left with its mutex free.  With a nil
    formatter nothing else has happened in between. *)
Theorem Handle_unlocks_when_Emit_panics t w p r :
  deref (records w) p = Some r ->
  (forall h : StreamHandler,
     (sh_Level h <= Level r)%Z -> held (sh_mu h) = false ->
     (format_of (sh_Formatter h) = None ->
      exists w',
        run t (StreamHandler_Handle h p) w = (Panicked nil_dereference, w') /\
        trace w' =
          trace w ++ [(t, EvLock (MuStream (length (stream_vars w))));
                      (t, EvUnlock (MuStream (length (stream_vars w))))] /\
        stream_vars w' = stream_vars w ++ [h] /\
        forall wr, sink_contents w' wr = sink_contents w wr) /\
     (forall fn, format_of (sh_Formatter h) = Some fn ->
      sink_callable w (sh_Out h) = false ->
      exists w',
        run t (StreamHandler_Handle h p) w = (Panicked nil_dereference, w') /\
        trace w' =
          trace w ++ [(t, EvLock (MuStream (length (stream_vars w))))] ++
          emit_events t (sh_Formatter h) (sh_Out h) p (fn r) ++
          [(t, EvUnlock (MuStream (length (stream_vars w))))] /\
        stream_vars w' = stream_vars w ++ [h] /\
        sink_contents w' (sh_Out h) = sink_contents w (sh_Out h))) /\
  (forall h : FileHandler,
     (fh_Level h <= Level r)%Z -> held (fh_mu h) = false ->
     format_of (fh_Formatter h) = None ->
     exists w',
       run t (FileHandler_Handle h p) w = (Panicked nil_dereference, w') /\
       trace w' =
         trace w ++ [(t, EvLock (MuFile (length (file_vars w))));
                     (t, EvUnlock (MuFile (length (file_vars w))))] /\
       file_vars w' = file_vars w ++ [h] /\
       forall wr, sink_contents w' wr = sink_contents w wr).
Proof.
  intros Hr. split.
  - intros h Hl Hm. split.
    + intros Hf. eexists.
      rewrite (run_StreamHandler_Handle_nil_formatter _ _ _ r) by assumption.
      split; [reflexivity|]. split; [reflexivity|]. split; [reflexivity|].
      intros []; reflexivity.
    + intros fn Hf Hc. exists (handled_stream t h p (fn r) w).
      rewrite (run_StreamHandler_Handle_emit _ _ fn _ r), Hc by assumption.
      destruct (handled_stream_frame t h p (fn r) w) as (_ & V & _ & T).
      split; [reflexivity|]. split; [exact T|].
      split; [now rewrite V, sh_with_mu_id|].
      rewrite sink_contents_handled_stream_sink. unfold line_in.
      replace (sink_accepts w (sh_Out h)) with false;
        [apply append_empty_r|].
      destruct (sh_Out h) as [| |b]; try discriminate; [reflexivity|].
      simpl in *. now rewrite Hc.
  - intros h Hl Hm Hf. eexists.
    rewrite (run_FileHandler_Handle_nil_formatter _ _ _ r) by assumption.
    split; [reflexivity|]. split; [reflexivity|]. split; [reflexivity|].
    intros []; reflexivity.
Qed.

(** X3.  Whatever the handler, the record pointer and the way the call
    ends (return, panic, or waiting for ever), [Handle] leaves every
    handler variable that existed before the call as it was, the state of
    its mutex included.  All it adds is the variable of its receiver,
    which at the end holds the struct it was called on. *)
Theorem Handle_touches_no_existing_handler t w p :
  (forall h : StreamHandler,
     stream_vars (run t (StreamHandler_Handle h p) w).2 =
       stream_vars w ++ [h] /\
     file_vars (run t (StreamHandler_Handle h p) w).2 = file_vars w) /\
  (forall h : FileHandler,
     file_vars (run t (FileHandler_Handle h p) w).2 = file_vars w ++ [h] /\
     stream_vars (run t (FileHandler_Handle h p) w).2 = stream_vars w).
Proof.
  split; intros h.
  - destruct (deref (records w) p) as [r|] eqn:Hr;
      [|rewrite run_StreamHandler_Handle_nil_record by exact Hr;
        split; reflexivity].
    destruct (Z.lt_ge_cases (Level r) (sh_Level h)) as [Hl|Hl];
      [rewrite (run_StreamHandler_Handle_suppress t h p r w Hr Hl);
       split; reflexivity|].
    destruct (held (sh_mu h)) eqn:Hm;
      [rewrite (run_StreamHandler_Handle_held t h p r w Hr Hl Hm);
       split; reflexivity|].
    destruct (format_of (sh_Formatter h)) as [fn|] eqn:Hf;
      [|rewrite (run_StreamHandler_Handle_nil_formatter t h p r w)
          by assumption; split; reflexivity].
    rewrite (run_StreamHandler_Handle_emit t h fn p r w) by assumption.
    destruct (handled_stream_frame t h p (fn r) w) as (_ & V & F & _).
    split; [|exact F].
    etransitivity; [exact V|]. now rewrite sh_with_mu_id.
  - destruct (deref (records w) p) as [r|] eqn:Hr;
      [|rewrite run_FileHandler_Handle_nil_record by exact Hr;
        split; reflexivity].
    destruct (Z.lt_ge_cases (Level r) (fh_Level h)) as [Hl|Hl];
      [rewrite (run_FileHandler_Handle_suppress t h p r w Hr Hl);
       split; reflexivity|].
    destruct (held (fh_mu h)) eqn:Hm;
      [rewrite (run_FileHandler_Handle_held t h p r w Hr Hl Hm);
       split; reflexivity|].
    destruct (format_of (fh_Formatter h)) as [fn|] eqn:Hf;
      [|rewrite (run_FileHandler_Handle_nil_formatter t h p r w)
          by assumption; split; reflexivity].
    rewrite (run_FileHandler_Handle_emit t h fn p r w) by assumption.
    destruct (handled_file_frame t h p (fn r) w) as (_ & F & V & _).
    split; [|exact F].
    etransitivity; [exact V|]. now rewrite fh_with_mu_id.
Qed.

(** ** Emit on its own *)

Lemma locks_emit_events t f out p res : locks (emit_events t f out p res) = [].
Proof. destruct res as [msg [e|]]; reflexivity. Qed.

(** X4.  [Emit] does not look at the threshold and takes no lock: called
    with a record below the threshold, which [Handle] would suppress, it
    still calls the formatter and prints the line on the sink, and no lock
    or unlock is among its events. *)
Theorem Emit_prints_below_the_threshold_without_lock t w p r :
  deref (records w) p = Some r ->
  (forall (h : StreamHandler) fn,
     format_of (sh_Formatter h) = Some fn ->
     sink_callable w (sh_Out h) = true ->
     (Level r < sh_Level h)%Z ->
     exists w' evs,
       run t (StreamHandler_Emit h p) w = (Returned tt, w') /\
       trace w' = trace w ++ evs /\
       formats evs = [(t, EvFormat (sh_Formatter h) p)] /\
       lines_to (sh_Out h) evs = [(fn r).1] /\
       locks evs = [] /\
       stream_vars w' = stream_vars w /\
       sink_contents w' (sh_Out h) =
         sink_contents w (sh_Out h) +:+ line_in w (sh_Out h) (fn r)) /\
  (forall (h : FileHandler) fn,
     format_of (fh_Formatter h) = Some fn ->
     (Level r < fh_Level h)%Z ->
     exists w' evs,
       run t (FileHandler_Emit h p) w = (Returned tt, w') /\
       trace w' = trace w ++ evs /\
       formats evs = [(t, EvFormat (fh_Formatter h) p)] /\
       lines_to (FileWriter (fh_Out h)) evs = [(fn r).1] /\
       locks evs = [] /\
       file_vars w' = file_vars w /\
       sink_contents w' (FileWriter (fh_Out h)) =
         sink_contents w (FileWriter (fh_Out h)) +:+
         line_in w (FileWriter (fh_Out h)) (fn r)).
Proof.
  intros Hr. split.
  - intros h fn Hf Hc _.
    exists (emitted t (sh_Formatter h) (sh_Out h) p (fn r) w),
      (emit_events t (sh_Formatter h) (sh_Out h) p (fn r)).
    rewrite (run_StreamHandler_Emit _ _ fn _ r), Hc by assumption.
    destruct (emitted_frame t (sh_Formatter h) (sh_Out h) p (fn r) w)
      as (_ & V & _ & T).
    split; [reflexivity|]. split; [exact T|].
    split; [apply formats_emit_events|].
    split; [apply lines_to_emit_events|].
    split; [apply locks_emit_events|]. split; [exact V|].
    apply sink_contents_emitted_sink.
  - intros h fn Hf _.
    exists (emitted t (fh_Formatter h) (FileWriter (fh_Out h)) p (fn r) w),
      (emit_events t (fh_Formatter h) (FileWriter (fh_Out h)) p (fn r)).
    rewrite (run_FileHandler_Emit _ _ fn _ r) by assumption.
    destruct (emitted_frame t (fh_Formatter h) (FileWriter (fh_Out h)) p
                (fn r) w) as (_ & _ & V & T).
    split; [reflexivity|]. split; [exact T|].
    split; [apply formats_emit_events|].
    split; [apply lines_to_emit_events|].
    split; [apply locks_emit_events|]. split; [exact V|].
    apply sink_contents_emitted_sink.
Qed.

(** ** A closed file *)

(** The world after [Close] on the open file [f] at address [l]. *)
Lemma run_FileHandler_Close_open t h l f w :
  fh_Out h = Some l -> os_files w !! l = Some f -> f_closed f = false ->
  run t (FileHandler_Close h) w =
  (Returned (fs_close w (f_name f)),
   with_os_files (log t (EvClose (Some l)) w)
     (<[l := f_with_closed f true]> (os_files w))).
Proof.
  intros Ho Hf Hc. unfold FileHandler_Close. simpl. rewrite Ho. simpl.
  rewrite Hf, Hc. reflexivity.
Qed.

Lemma closed_file_refuses t l f w :
  os_files w !! l = Some f ->
  sink_accepts
    (with_os_files (log t (EvClose (Some l)) w)
       (<[l := f_with_closed f true]> (os_files w)))
    (FileWriter (Some l)) = false /\
  sink_contents
    (with_os_files (log t (EvClose (Some l)) w)
       (<[l := f_with_closed f true]> (os_files w)))
    (FileWriter (Some l)) = sink_contents w (FileWriter (Some l)).
Proof.
  intros Hf. simpl.
  rewrite list_lookup_insert_eq by (eapply lookup_lt_Some; exact Hf).
  rewrite Hf. split; reflexivity.
Qed.

(** X5.  A FileHandler whose file is open is closed, and [Handle] is
    called afterwards with a record that is not suppressed.  [Close] returns
    the verdict of the file system.  [Handle] then returns as if all were
    well: the formatter is called and the line handed to the file, but the
    closed file refuses it, the error of the write is dropped, and the file
    holds what it held before. *)
Theorem Handle_after_Close_loses_the_line t w p r :
  deref (records w) p = Some r ->
  forall (h : FileHandler) fn l f,
    fh_Out h = Some l ->
    os_files w !! l = Some f ->
    f_closed f = false ->
    format_of (fh_Formatter h) = Some fn ->
    held (fh_mu h) = false ->
    (fh_Level h <= Level r)%Z ->
    exists w1 w2 evs,
      run t (FileHandler_Close h) w = (Returned (fs_close w (f_name f)), w1) /\
      run t (FileHandler_Handle h p) w1 = (Returned tt, w2) /\
      trace w2 = trace w1 ++ evs /\
      lines_to (FileWriter (Some l)) evs = [(fn r).1] /\
      sink_contents w2 (FileWriter (Some l)) =
        sink_contents w (FileWriter (Some l)).
Proof.
  intros Hr h fn l f Ho Hf Hc Hfmt Hm Hl.
  destruct (closed_file_refuses t l f w Hf) as [Ha Hs].
  set (w1 := with_os_files (log t (EvClose (Some l)) w)
               (<[l := f_with_closed f true]> (os_files w))) in *.
  exists w1, (handled_file t h p (fn r) w1),
    (handle_events t (MuFile (length (file_vars w1))) (fh_Formatter h)
       (FileWriter (fh_Out h)) p (fn r)).
  split; [now apply run_FileHandler_Close_open|].
  split; [now apply (run_FileHandler_Handle_emit t h fn p r w1)|].
  split; [apply handled_file_frame|].
  rewrite <- Ho. split; [apply lines_to_handle_events|].
  rewrite sink_contents_handled_file_sink. unfold line_in.
  rewrite Ho, Ha, append_empty_r. exact Hs.
Qed.

(** X6.  [Close] twice on a FileHandler whose file is open: the first
    call returns the verdict of the file system and leaves the file
    closed; the second returns the error of a file already closed and
    changes no file. *)
Theorem Close_twice_returns_the_error_of_a_closed_file t w :
  forall (h : FileHandler) l f,
    fh_Out h = Some l ->
    os_files w !! l = Some f ->
    f_closed f = false ->
    exists w1 w2,
      run t (FileHandler_Close h) w = (Returned (fs_close w (f_name f)), w1) /\
      f_closed <$> os_files w1 !! l = Some true /\
      run t (FileHandler_Close h) w1 =
        (Returned (Some (path_error "close" (f_name f) ErrClosed)), w2) /\
      os_files w2 = os_files w1.
Proof.
  intros h l f Ho Hf Hc.
  do 2 eexists.
  split; [exact (run_FileHandler_Close_open t h l f w Ho Hf Hc)|].
  assert (E : <[l := f_with_closed f true]> (os_files w) !! l =
              Some (f_with_closed f true))
    by (apply list_lookup_insert_eq; eapply lookup_lt_Some; exact Hf).
  split; [simpl; now rewrite E|].
  unfold FileHandler_Close. simpl. rewrite Ho. simpl. rewrite E. simpl.
  split; reflexivity.
Qed.

(** ** A handler fresh from its constructor *)



(** ** One call after the other *)

Lemma lines_in_same w1 w out fn ps :
  records w1 = records w ->
  sink_accepts w1 out = sink_accepts w out ->
  lines_in w1 out fn ps = lines_in w out fn ps /\
  List.map (fun p => (formatted fn w1 p).1) ps =
    List.map (fun p => (formatted fn w p).1) ps.
Proof.
  intros Er Ea. induction ps as [|p ps [IH1 IH2]]; [split; reflexivity|].
  simpl. unfold line_in, formatted. rewrite Er, Ea, IH1.
  split; reflexivity.
Qed.

Lemma StreamHandler_Handle_each t hp (h : StreamHandler) fn ps :
  forall w,
    deref (stream_vars w) hp = Some h ->
    format_of (sh_Formatter h) = Some fn ->
    held (sh_mu h) = false ->
    sink_callable w (sh_Out h) = true ->
    Forall (fun p => exists r, deref (records w) p = Some r /\
                               (sh_Level h <= Level r)%Z) ps ->
    exists w' evs,
      run t (each (StreamHandler_ptr_Handle hp) ps) w = (Returned tt, w') /\
      records w' = records w /\
      deref (stream_vars w') hp = Some h /\
      sink_callable w' (sh_Out h) = true /\
      sink_accepts w' (sh_Out h) = sink_accepts w (sh_Out h) /\
      trace w' = trace w ++ evs /\
      lines_to (sh_Out h) evs = List.map (fun p => (formatted fn w p).1) ps /\
      sink_contents w' (sh_Out h) =
        sink_contents w (sh_Out h) +:+ lines_in w (sh_Out h) fn ps.
Proof.
  induction ps as [|p ps IH]; intros w Hh Hf Hm Hc Hall.
  - exists w, []. simpl. rewrite app_nil_r, append_empty_r.
    repeat split; assumption.
  - inversion Hall as [|? ? (r & Hr & Hl) Hrest]; subst.
    destruct (run_StreamHandler_ptr_Handle_emit t hp h fn p r w)
      as (R1 & H1 & _); try assumption.
    set (w1 := handled_stream t h p (fn r) w) in *.
    destruct (handled_stream_frame t h p (fn r) w) as (E1 & _ & _ & T1).
    fold w1 in E1, T1.
    assert (Ha1 : sink_accepts w1 (sh_Out h) = sink_accepts w (sh_Out h))
      by apply sink_accepts_handled_stream.
    assert (Hc1 : sink_callable w1 (sh_Out h) = true)
      by (unfold w1; now rewrite sink_callable_handled_stream).
    destruct (IH w1 H1 Hf Hm Hc1) as (w' & evs & R & E & H' & C' & A' & T & L & S).
    { rewrite E1. exact Hrest. }
    destruct (lines_in_same w1 w (sh_Out h) fn ps E1 Ha1) as [L1 L2].
    exists w', (handle_events t (MuStream (length (stream_vars w)))
                  (sh_Formatter h) (sh_Out h) p (fn r) ++ evs).
    split; [cbn [each]; rewrite run_bind, R1; exact R|].
    split; [congruence|]. split; [exact H'|]. split; [exact C'|].
    split; [congruence|].
    split; [rewrite T, T1; unfold handle_events;
            rewrite <- !app_assoc; reflexivity|].
    split.
    + rewrite lines_to_app, lines_to_handle_events, L, L2. simpl.
      unfold formatted. now rewrite Hr.
    + rewrite S. unfold w1 at 1.
      rewrite sink_contents_handled_stream_sink, L1, append_assoc. simpl.
      unfold formatted. now rewrite Hr.
Qed.

Lemma FileHandler_Handle_each t hp (h : FileHandler) fn ps :
  forall w,
    deref (file_vars w) hp = Some h ->
    format_of (fh_Formatter h) = Some fn ->
    held (fh_mu h) = false ->
    Forall (fun p => exists r, deref (records w) p = Some r /\
                               (fh_Level h <= Level r)%Z) ps ->
    exists w' evs,
      run t (each (FileHandler_ptr_Handle hp) ps) w = (Returned tt, w') /\
      records w' = records w /\
      deref (file_vars w') hp = Some h /\
      sink_accepts w' (FileWriter (fh_Out h)) =
        sink_accepts w (FileWriter (fh_Out h)) /\
      trace w' = trace w ++ evs /\
      lines_to (FileWriter (fh_Out h)) evs =
        List.map (fun p => (formatted fn w p).1) ps /\
      sink_contents w' (FileWriter (fh_Out h)) =
        sink_contents w (FileWriter (fh_Out h)) +:+
        lines_in w (FileWriter (fh_Out h)) fn ps.
Proof.
  induction ps as [|p ps IH]; intros w Hh Hf Hm Hall.
  - exists w, []. simpl. rewrite app_nil_r, append_empty_r.
    repeat split; assumption.
  - inversion Hall as [|? ? (r & Hr & Hl) Hrest]; subst.
    destruct (run_FileHandler_ptr_Handle_emit t hp h fn p r w)
      as (R1 & H1 & _); try assumption.
    set (w1 := handled_file t h p (fn r) w) in *.
    destruct (handled_file_frame t h p (fn r) w) as (E1 & _ & _ & T1).
    fold w1 in E1, T1.
    assert (Ha1 : sink_accepts w1 (FileWriter (fh_Out h)) =
                  sink_accepts w (FileWriter (fh_Out h)))
      by apply sink_accepts_handled_file.
    destruct (IH w1 H1 Hf Hm) as (w' & evs & R & E & H' & A' & T & L & S).
    { rewrite E1. exact Hrest. }
    destruct (lines_in_same w1 w (FileWriter (fh_Out h)) fn ps E1 Ha1)
      as [L1 L2].
    exists w', (handle_events t (MuFile (length (file_vars w)))
                  (fh_Formatter h) (FileWriter (fh_Out h)) p (fn r) ++ evs).
    split; [cbn [each]; rewrite run_bind, R1; exact R|].
    split; [congruence|]. split; [exact H'|].
    split; [congruence|].
    split; [rewrite T, T1; unfold handle_events;
            rewrite <- !app_assoc; reflexivity|].
    split.
    + rewrite lines_to_app, lines_to_handle_events, L, L2. simpl.
      unfold formatted. now rewrite Hr.
    + rewrite S. unfold w1 at 1.
      rewrite sink_contents_handled_file_sink, L1, append_assoc. simpl.
      unfold formatted. now rewrite Hr.
Qed.

(** X8.  [Handle] called for one record after the other, through the
    pointer to a handler and with records that are not suppressed, returns
    each time, and the lines appear in the order of the calls: the lines
    printed are the texts of the formatter in call order, and a sink that
    takes the bytes grows by these lines, in that order.  The records and
    the struct of the handler are afterwards what they were. *)
Theorem Handle_each_prints_in_call_order t w hp fn ps :
  (forall h : StreamHandler,
     deref (stream_vars w) hp = Some h ->
     format_of (sh_Formatter h) = Some fn ->
     held (sh_mu h) = false ->
     sink_callable w (sh_Out h) = true ->
     Forall (fun p => exists r, deref (records w) p = Some r /\
                                (sh_Level h <= Level r)%Z) ps ->
     exists w' evs,
       run t (each (StreamHandler_ptr_Handle hp) ps) w = (Returned tt, w') /\
       records w' = records w /\
       deref (stream_vars w') hp = Some h /\
       trace w' = trace w ++ evs /\
       lines_to (sh_Out h) evs = List.map (fun p => (formatted fn w p).1) ps /\
       sink_contents w' (sh_Out h) =
         sink_contents w (sh_Out h) +:+ lines_in w (sh_Out h) fn ps) /\
  (forall h : FileHandler,
     deref (file_vars w) hp = Some h ->
     format_of (fh_Formatter h) = Some fn ->
     held (fh_mu h) = false ->
     Forall (fun p => exists r, deref (records w) p = Some r /\
                                (fh_Level h <= Level r)%Z) ps ->
     exists w' evs,
       run t (each (FileHandler_ptr_Handle hp) ps) w = (Returned tt, w') /\
       records w' = records w /\
       deref (file_vars w') hp = Some h /\
       trace w' = trace w ++ evs /\
       lines_to (FileWriter (fh_Out h)) evs =
         List.map (fun p => (formatted fn w p).1) ps /\
       sink_contents w' (FileWriter (fh_Out h)) =
         sink_contents w (FileWriter (fh_Out h)) +:+
         lines_in w (FileWriter (fh_Out h)) fn ps).
Proof.
  split.
  - intros h Hh Hf Hm Hc Hall.
    destruct (StreamHandler_Handle_each t hp h fn ps w Hh Hf Hm Hc Hall)
      as (w' & evs & R & E & H' & _ & _ & T & L & S).
    exists w', evs. repeat split; assumption.
  - intros h Hh Hf Hm Hall.
    destruct (FileHandler_Handle_each t hp h fn ps w Hh Hf Hm Hall)
      as (w' & evs & R & E & H' & _ & T & L & S).
    exists w', evs. repeat split; assumption.
Qed.

(** ** A file handler without a file *)

Lemma sink_contents_handled_file_elsewhere t h p res w wr :
  fh_Out h = None ->
  (res.2 = None \/ wr <> FileWriter os_Stderr) ->
  sink_contents (handled_file t h p res w) wr = sink_contents w wr.
Proof.
  intros Ho Hd. unfold handled_file. cbv zeta.
  rewrite sink_contents_log, sink_contents_set_mutex, Ho.
  destruct (decide (wr = FileWriter None)) as [->|Hne]; [reflexivity|].
  rewrite sink_contents_emitted_other by assumption.
  now rewrite sink_contents_log, sink_contents_set_mutex.
Qed.

(** X9.  A FileHandler whose [Out] is the nil file, as in a struct built
    without the constructor, does not panic in [Handle]: the call returns,
    the formatter has been called and the line handed to [Fprintln], and
    no sink holds it; only the standard error stream grows, by the
    diagnostic, when the formatter failed. *)
Theorem FileHandler_without_file_drops_the_line t w p r :
  deref (records w) p = Some r ->
  forall (h : FileHandler) fn,
    fh_Out h = None ->
    format_of (fh_Formatter h) = Some fn ->
    held (fh_mu h) = false ->
    (fh_Level h <= Level r)%Z ->
    exists w' evs,
      run t (FileHandler_Handle h p) w = (Returned tt, w') /\
      trace w' = trace w ++ evs /\
      formats evs = [(t, EvFormat (fh_Formatter h) p)] /\
      lines_to (FileWriter None) evs = [(fn r).1] /\
      forall wr, (fn r).2 = None \/ wr <> FileWriter os_Stderr ->
        sink_contents w' wr = sink_contents w wr.
Proof.
  intros Hr h fn Ho Hf Hm Hl.
  exists (handled_file t h p (fn r) w),
    (handle_events t (MuFile (length (file_vars w))) (fh_Formatter h)
       (FileWriter (fh_Out h)) p (fn r)).
  split; [now apply (run_FileHandler_Handle_emit t h fn p r w)|].
  split; [apply handled_file_frame|].
  split; [apply formats_handle_events|].
  split; [rewrite <- Ho; apply lines_to_handle_events|].
  intros wr Hd. now apply sink_contents_handled_file_elsewhere.
Qed.

End Handlers.

(** * The claims on sample worlds *)

(** The record of [boot] has level 3: no handler with threshold 3 or less
    suppresses it. *)
Lemma Filter_true_iff_below_threshold_witness :
  deref (records boot) (Some 0) = Some sample_record /\
  (forall h : StreamHandler, exists b,
     run text_format text_format 0 (StreamHandler_Filter h (Some 0)) boot =
       (Returned b, boot) /\
     (b = true <-> (Level sample_record < sh_Level h)%Z)) /\
  (forall h : FileHandler, exists b,
     run text_format text_format 0 (FileHandler_Filter h (Some 0)) boot =
       (Returned b, boot) /\
     (b = true <-> (Level sample_record < fh_Level h)%Z)).
Proof.
  split; [reflexivity|].
  apply (Filter_true_iff_below_threshold text_format text_format 0 boot
           (Some 0) sample_record).
  reflexivity.
Defined.

(** The handler of [NewStreamHandler] and the record of level 3: one line
    on the standard error stream. *)
Lemma Handle_prints_one_line_from_threshold_up_witness :
  deref (records (app_world [sample_record])) (Some 0) = Some sample_record /\
  format_of text_format text_format (sh_Formatter app_handler) =
    Some text_format /\
  held (sh_mu app_handler) = false /\
  sink_callable (app_world [sample_record]) (sh_Out app_handler) = true /\
  exists w' evs,
    run text_format text_format 0 (StreamHandler_Handle app_handler (Some 0))
      (app_world [sample_record]) = (Returned tt, w') /\
    trace w' = trace (app_world [sample_record]) ++ evs /\
    (((Level sample_record < sh_Level app_handler)%Z /\ evs = [] /\
      forall wr,
        sink_contents w' wr = sink_contents (app_world [sample_record]) wr) \/
     ((sh_Level app_handler <= Level sample_record)%Z /\
      formats evs = [(0, EvFormat (sh_Formatter app_handler) (Some 0))] /\
      lines_to (sh_Out app_handler) evs = [(text_format sample_record).1] /\
      sink_contents w' (sh_Out app_handler) =
        sink_contents (app_world [sample_record]) (sh_Out app_handler) +:+
        (if sink_accepts (app_world [sample_record]) (sh_Out app_handler)
         then diagnostic_in (sh_Out app_handler) (text_format sample_record).2
              +:+ (text_format sample_record).1 +:+ newline
         else ""))).
Proof.
  split; [reflexivity|]. split; [reflexivity|]. split; [reflexivity|].
  split; [reflexivity|].
  apply (proj1 (Handle_prints_one_line_from_threshold_up
                  text_format text_format 0 (app_world [sample_record])
                  (Some 0) sample_record eq_refl)
           app_handler text_format); reflexivity.
Defined.

(** A terminal formatter that fails on the record: the diagnostic and the
    line both reach the standard error stream, which is the sink. *)
Lemma formatter_error_is_reported_not_returned_witness :
  deref (records (app_world [sample_record])) (Some 0) = Some sample_record /\
  format_of failing_format text_format (sh_Formatter app_handler) =
    Some failing_format /\
  failing_format sample_record = ("disk full", Some "bad record") /\
  sink_callable (app_world [sample_record]) (sh_Out app_handler) = true /\
  held (sh_mu app_handler) = false /\
  (sh_Level app_handler <= Level sample_record)%Z /\
  (exists w',
     run failing_format text_format 0
       (StreamHandler_Emit app_handler (Some 0))
       (app_world [sample_record]) = (Returned tt, w') /\
     reported_and_printed (sh_Out app_handler) "disk full" "bad record"
       (app_world [sample_record]) w') /\
  (exists w',
     run failing_format text_format 0
       (StreamHandler_Handle app_handler (Some 0))
       (app_world [sample_record]) = (Returned tt, w') /\
     reported_and_printed (sh_Out app_handler) "disk full" "bad record"
       (app_world [sample_record]) w').
Proof.
  split; [reflexivity|]. split; [reflexivity|]. split; [reflexivity|].
  split; [reflexivity|]. split; [reflexivity|]. split; [discriminate|].
  destruct (proj1 (formatter_error_is_reported_not_returned
                     failing_format text_format 0
                     (app_world [sample_record]) (Some 0) sample_record
                     "disk full" "bad record" eq_refl)
              app_handler failing_format eq_refl eq_refl eq_refl)
    as [HE HH].
  split; [exact HE|]. apply HH; [reflexivity|discriminate].
Defined.

(** The file system of [boot] opens /var/log/app.log. *)
Lemma constructor_defaults_witness :
  fs_open boot "/var/log/app.log" open_flag open_perm = None /\
  (exists l h w',
     run text_format text_format 0 (NewStreamHandler "app") boot =
       (Returned (Some l), w') /\
     stream_vars w' !! l = Some h /\
     sh_Level h = 0%Z /\
     sh_Out h = FileWriter os_Stderr /\
     sh_Formatter h = TerminalFormatter /\
     held (sh_mu h) = false /\
     forall p r, deref (records w') p = Some r ->
       run text_format text_format 0 (StreamHandler_Filter h p) w' =
       (Returned (negb (0 <=? Level r)%Z), w')) /\
  (exists l h w',
     run text_format text_format 0
       (NewFileHandler "app" "/var/log/app.log") boot =
       (Returned (Some l), w') /\
     file_vars w' !! l = Some h /\
     fh_Level h = 0%Z /\
     fh_Formatter h = DefaultFormatter /\
     DefaultFormatter <> TerminalFormatter /\
     held (fh_mu h) = false /\
     forall p r, deref (records w') p = Some r ->
       run text_format text_format 0 (FileHandler_Filter h p) w' =
       (Returned (negb (0 <=? Level r)%Z), w')).
Proof.
  split; [reflexivity|].
  apply (constructor_defaults text_format text_format 0 boot "app"
           "/var/log/app.log").
  reflexivity.
Defined.

(** C9 as stated fails: the handler that [NewStreamHandler] returns does
    not emit everything.  Handed the record of level -1 it returns having
    printed nothing. *)
Lemma NewStreamHandler_suppresses_negative_levels :
  exists h w1 w2,
    run text_format text_format 0 (NewStreamHandler "app")
      (start [trace_record]) = (Returned h, w1) /\
    run text_format text_format 0 (StreamHandler_ptr_Filter h (Some 0)) w1 =
      (Returned true, w1) /\
    run text_format text_format 0 (StreamHandler_ptr_Handle h (Some 0)) w1 =
      (Returned tt, w2) /\
    writes (trace w2) = [] /\
    sink_contents w2 (FileWriter os_Stderr) = "".
Proof. do 3 eexists. repeat split. Qed.

(** Two calls in a row on the handler of [NewStreamHandler]. *)
Lemma Handle_repeats_the_line_and_changes_nothing_else_witness :
  deref (stream_vars (app_world [sample_record])) (Some 0) =
    Some app_handler /\
  deref (records (app_world [sample_record])) (Some 0) = Some sample_record /\
  format_of text_format text_format (sh_Formatter app_handler) =
    Some text_format /\
  held (sh_mu app_handler) = false /\
  sink_callable (app_world [sample_record]) (sh_Out app_handler) = true /\
  (sh_Level app_handler <= Level sample_record)%Z /\
  exists w1 w2,
    run text_format text_format 0
      (StreamHandler_ptr_Handle (Some 0) (Some 0))
      (app_world [sample_record]) = (Returned tt, w1) /\
    run text_format text_format 0
      (StreamHandler_ptr_Handle (Some 0) (Some 0)) w1 = (Returned tt, w2) /\
    deref (stream_vars w1) (Some 0) = Some app_handler /\
    deref (stream_vars w2) (Some 0) = Some app_handler /\
    one_more_line (sh_Out app_handler) (text_format sample_record)
      (app_world [sample_record]) w1 /\
    one_more_line (sh_Out app_handler) (text_format sample_record) w1 w2.
Proof.
  split; [reflexivity|]. split; [reflexivity|]. split; [reflexivity|].
  split; [reflexivity|]. split; [reflexivity|]. split; [discriminate|].
  apply (proj1 (proj2 (proj2 (proj2
           (Handle_repeats_the_line_and_changes_nothing_else
              text_format text_format 0 (app_world [sample_record])
              (Some 0)))))
           (Some 0) app_handler sample_record text_format);
    try reflexivity.
  discriminate.
Defined.

(** The two calls, computed: the standard error stream holds the line
    twice. *)
Lemma Handle_twice_prints_twice :
  exists w1 w2,
    run text_format text_format 0
      (StreamHandler_ptr_Handle (Some 0) (Some 0))
      (app_world [sample_record]) = (Returned tt, w1) /\
    run text_format text_format 0
      (StreamHandler_ptr_Handle (Some 0) (Some 0)) w1 = (Returned tt, w2) /\
    sink_contents w1 (FileWriter os_Stderr) = "disk full" +:+ newline /\
    sink_contents w2 (FileWriter os_Stderr) =
      "disk full" +:+ newline +:+ "disk full" +:+ newline /\
    records w2 = [sample_record] /\
    stream_vars w2 !! 0 = Some app_handler.
Proof.
  eexists. eexists. split; [vm_compute; reflexivity|].
  split; [vm_compute; reflexivity|]. vm_compute. repeat split.
Qed.

(** ** Two goroutines on one handler *)

(** The handler and world of the examples are what the constructor
    makes. *)
Lemma NewStreamHandler_app rs :
  run text_format text_format 0 (NewStreamHandler "app") (start rs) =
  (Returned (Some 0), app_world rs).
Proof. reflexivity. Qed.

(** C1 fails on the code.  Two goroutines call [Handle] on the same
    handler, whose formatter fails.  Under the schedule below both calls
    return, and each goroutine has locked a mutex before its [Emit], but
    never the same one: goroutine 0 the mutex of the handler variable 1,
    goroutine 1 that of variable 2, the receivers of the two calls; the
    mutex of the handler itself, variable 0, is never locked.  So goroutine
    1 is inside [Emit] while goroutine 0 is, and the standard error stream
    receives the two diagnostics first and the two lines after them. *)
Theorem concurrent_Handle_calls_overlap_in_Emit :
  exists c,
    run_schedule failing_format text_format
      overlapping_schedule_with_diagnostics
      (two_goroutines, app_world [sample_record]) = Some c /\
    List.map finished c.1 = [true; true] /\
    trace c.2 =
      [(0, EvLock (MuStream 1));
       (0, EvFormat TerminalFormatter (Some 0));
       (0, EvFprintf (FileWriter os_Stderr) (diagnostic "bad record"));
       (1, EvLock (MuStream 2));
       (1, EvFormat TerminalFormatter (Some 0));
       (1, EvFprintf (FileWriter os_Stderr) (diagnostic "bad record"));
       (0, EvFprintln (FileWriter os_Stderr) "disk full");
       (1, EvFprintln (FileWriter os_Stderr) "disk full");
       (0, EvUnlock (MuStream 1));
       (1, EvUnlock (MuStream 2))] /\
    emits_overlap None (trace c.2) = true /\
    sink_contents c.2 (FileWriter os_Stderr) =
      diagnostic "bad record" +:+ diagnostic "bad record" +:+
      ("disk full" +:+ newline) +:+ ("disk full" +:+ newline).
Proof.
  eexists. split; [vm_compute; reflexivity|].
  vm_compute. repeat split.
Qed.

(** The same happens with a formatter that does not fail. *)
Lemma concurrent_Handle_calls_overlap_without_error :
  exists c,
    run_schedule text_format text_format overlapping_schedule
      (two_goroutines, app_world [sample_record]) = Some c /\
    List.map finished c.1 = [true; true] /\
    emits_overlap None (trace c.2) = true.
Proof.
  eexists. split; [vm_compute; reflexivity|].
  vm_compute. repeat split.
Qed.

(** Had [Handle] locked the mutex of the handler itself, as the spec
    words it, goroutine 1 could not have entered: after the first five
    steps of goroutine 0 it reaches its [Lock] in two steps and waits. *)
Lemma Spec_Handle_makes_the_second_caller_wait :
  run_schedule failing_format text_format [0; 0; 0; 0; 0; 1; 1; 1]
    (two_goroutines_by_the_spec, app_world [sample_record]) = None /\
  exists c,
    run_schedule failing_format text_format [0; 0; 0; 0; 0; 1; 1]
      (two_goroutines_by_the_spec, app_world [sample_record]) = Some c /\
    mutex_at c.2 (MuStream 0) = Some {| held := true |}.
Proof.
  split; [vm_compute; reflexivity|].
  eexists. split; vm_compute; reflexivity.
Qed.

(** And under no schedule at all would two [Emit] calls have
    overlapped. *)
Lemma Spec_Handle_serializes :
  forall sched c,
    run_schedule failing_format text_format sched
      (two_goroutines_by_the_spec, app_world [sample_record]) = Some c ->
    emits_overlap None (trace c.2) = false.
Proof.
  apply (never_overlaps_sound failing_format text_format 16).
  vm_compute. reflexivity.
Qed.

(** ** The constructors on the sample world *)

Lemma NewFileHandler_panics_under_nodir :
  (run text_format text_format 0 (NewFileHandler "app" "/nodir/app.log")
     boot).1 = Panicked "can not open file /nodir/app.log" /\
  file_vars
    (run text_format text_format 0 (NewFileHandler "app" "/nodir/app.log")
       boot).2 = [].
Proof. vm_compute. split; reflexivity. Qed.

Lemma NewFileHandler_opens_var_log :
  (run text_format text_format 0 (NewFileHandler "app" "/var/log/app.log")
     boot).1 = Returned (Some 0) /\
  file_vars
    (run text_format text_format 0 (NewFileHandler "app" "/var/log/app.log")
       boot).2 =
    [{| fh_Path := "/var/log/app.log"; fh_Out := Some 3; fh_Name := "app";
        fh_Level := 0; fh_Formatter := DefaultFormatter;
        fh_mu := unlocked |}].
Proof. vm_compute. split; reflexivity. Qed.

(** Closing the file of a handler twice: the second [Close] returns the
    error of a closed file. *)
Lemma FileHandler_Close_twice :
  (run text_format text_format 0
     (h <- NewFileHandler "app" "/var/log/app.log" ;;
      e1 <- FileHandler_ptr_Close h ;;
      e2 <- FileHandler_ptr_Close h ;;
      Ret (e1, e2)) boot).1 =
  Returned (None, Some "close /var/log/app.log: file already closed").
Proof. vm_compute. reflexivity. Qed.

(** * The further properties on sample worlds *)

(** The nil pointer in [boot]. *)
Lemma nil_record_panics_before_any_effect_witness :
  deref (records boot) None = None /\
  exists w',
    run text_format text_format 0 (StreamHandler_Handle app_handler None)
      boot = (Panicked nil_dereference, w') /\
    trace w' = trace boot /\
    forall wr, sink_contents w' wr = sink_contents boot wr.
Proof.
  split; [reflexivity|].
  apply (proj1 (nil_record_panics_before_any_effect text_format text_format
                  0 boot None eq_refl) app_handler).
Defined.

(** A handler without a formatter. *)
Lemma Handle_unlocks_when_Emit_panics_witness :
  deref (records boot) (Some 0) = Some sample_record /\
  (0 <= Level sample_record)%Z /\
  format_of text_format text_format NilFormatter = None /\
  exists w',
    run text_format text_format 0
      (StreamHandler_Handle
         {| sh_Out := FileWriter os_Stderr; sh_Formatter := NilFormatter;
            sh_Name := "app"; sh_Level := 0; sh_mu := unlocked |} (Some 0))
      boot = (Panicked nil_dereference, w') /\
    trace w' = trace boot ++ [(0, EvLock (MuStream 0));
                              (0, EvUnlock (MuStream 0))].
Proof.
  split; [reflexivity|]. split; [discriminate|]. split; [reflexivity|].
  destruct (proj1 (proj1 (Handle_unlocks_when_Emit_panics text_format
                            text_format 0 boot (Some 0) sample_record eq_refl)
                     {| sh_Out := FileWriter os_Stderr;
                        sh_Formatter := NilFormatter; sh_Name := "app";
                        sh_Level := 0; sh_mu := unlocked |}
                     ltac:(discriminate) eq_refl) eq_refl)
    as (w' & R & T & _).
  exists w'. split; [exact R|exact T].
Defined.

(** A handler with threshold 10 and the record of level 3. *)
Lemma Emit_prints_below_the_threshold_without_lock_witness :
  deref (records boot) (Some 0) = Some sample_record /\
  (Level sample_record < 10)%Z /\
  exists w' evs,
    run text_format text_format 0
      (StreamHandler_Emit
         {| sh_Out := FileWriter os_Stderr; sh_Formatter := TerminalFormatter;
            sh_Name := "app"; sh_Level := 10; sh_mu := unlocked |} (Some 0))
      boot = (Returned tt, w') /\
    trace w' = trace boot ++ evs /\
    lines_to (FileWriter os_Stderr) evs = ["disk full"] /\
    locks evs = [].
Proof.
  split; [reflexivity|]. split; [reflexivity|].
  destruct (proj1 (Emit_prints_below_the_threshold_without_lock text_format
                     text_format 0 boot (Some 0) sample_record eq_refl)
              {| sh_Out := FileWriter os_Stderr;
                 sh_Formatter := TerminalFormatter; sh_Name := "app";
                 sh_Level := 10; sh_mu := unlocked |}
              text_format eq_refl eq_refl eq_refl)
    as (w' & evs & R & T & _ & L & K & _).
  exists w', evs. repeat split; assumption.
Defined.

(** The file handler of [log_world], closed and then used. *)
Lemma Handle_after_Close_loses_the_line_witness :
  deref (records (log_world [sample_record])) (Some 0) = Some sample_record /\
  fh_Out log_handler = Some 3 /\
  (fh_Level log_handler <= Level sample_record)%Z /\
  exists w1 w2,
    run text_format text_format 0 (FileHandler_Close log_handler)
      (log_world [sample_record]) = (Returned None, w1) /\
    run text_format text_format 0 (FileHandler_Handle log_handler (Some 0))
      w1 = (Returned tt, w2) /\
    sink_contents w2 (FileWriter (Some 3)) = "".
Proof.
  split; [reflexivity|]. split; [reflexivity|]. split; [discriminate|].
  destruct (Handle_after_Close_loses_the_line text_format text_format 0
              (log_world [sample_record]) (Some 0) sample_record eq_refl
              log_handler text_format 3
              {| f_name := "/var/log/app.log"; f_flag := open_flag;
                 f_perm := open_perm; f_closed := false; f_written := "" |}
              eq_refl eq_refl eq_refl eq_refl eq_refl ltac:(discriminate))
    as (w1 & w2 & evs & R1 & R2 & _ & _ & C).
  exists w1, w2. split; [exact R1|]. split; [exact R2|exact C].
Defined.

Lemma Close_twice_returns_the_error_of_a_closed_file_witness :
  fh_Out log_handler = Some 3 /\
  exists w1 w2,
    run text_format text_format 0 (FileHandler_Close log_handler)
      (log_world [sample_record]) = (Returned None, w1) /\
    run text_format text_format 0 (FileHandler_Close log_handler) w1 =
      (Returned (Some "close /var/log/app.log: file already closed"), w2) /\
    os_files w2 = os_files w1.
Proof.
  split; [reflexivity|].
  destruct (Close_twice_returns_the_error_of_a_closed_file text_format
              text_format 0 (log_world [sample_record]) log_handler 3
              {| f_name := "/var/log/app.log"; f_flag := open_flag;
                 f_perm := open_perm; f_closed := false; f_written := "" |}
              eq_refl eq_refl eq_refl)
    as (w1 & w2 & R1 & _ & R2 & E).
  exists w1, w2. split; [exact R1|]. split; [exact R2|exact E].
Defined.


(** Two records, handled in turn by the handler of [NewStreamHandler]. *)
Lemma Handle_each_prints_in_call_order_witness :
  deref (stream_vars (app_world [sample_record; second_record])) (Some 0) =
    Some app_handler /\
  Forall (fun p => exists r,
            deref (records (app_world [sample_record; second_record])) p =
              Some r /\ (sh_Level app_handler <= Level r)%Z)
    [Some 0; Some 1] /\
  exists w' evs,
    run text_format text_format 0
      (each (StreamHandler_ptr_Handle (Some 0)) [Some 0; Some 1])
      (app_world [sample_record; second_record]) = (Returned tt, w') /\
    trace w' = trace (app_world [sample_record; second_record]) ++ evs /\
    lines_to (FileWriter os_Stderr) evs = ["disk full"; "retrying"] /\
    sink_contents w' (FileWriter os_Stderr) =
      "disk full" +:+ newline +:+ "retrying" +:+ newline.
Proof.
  assert (Hall :
    Forall (fun p => exists r,
              deref (records (app_world [sample_record; second_record])) p =
                Some r /\ (sh_Level app_handler <= Level r)%Z)
      [Some 0; Some 1]).
  { constructor; [exists sample_record; split; [reflexivity|discriminate]|].
    constructor; [exists second_record; split; [reflexivity|discriminate]|].
    constructor. }
  split; [reflexivity|]. split; [exact Hall|].
  destruct (proj1 (Handle_each_prints_in_call_order text_format text_format 0
                     (app_world [sample_record; second_record]) (Some 0)
                     text_format [Some 0; Some 1])
              app_handler eq_refl eq_refl eq_refl eq_refl Hall)
    as (w' & evs & R & _ & _ & T & L & S).
  exists w', evs. split; [exact R|]. split; [exact T|].
  split; [exact L|exact S].
Defined.

(** A file handler built without the constructor. *)
Lemma FileHandler_without_file_drops_the_line_witness :
  deref (records boot) (Some 0) = Some sample_record /\
  exists w' evs,
    run text_format text_format 0
      (FileHandler_Handle
         {| fh_Path := ""; fh_Out := None; fh_Name := "app"; fh_Level := 0;
            fh_Formatter := DefaultFormatter; fh_mu := unlocked |} (Some 0))
      boot = (Returned tt, w') /\
    trace w' = trace boot ++ evs /\
    lines_to (FileWriter None) evs = ["disk full"] /\
    forall wr, sink_contents w' wr = sink_contents boot wr.
Proof.
  split; [reflexivity|].
  destruct (FileHandler_without_file_drops_the_line text_format text_format
              0 boot (Some 0) sample_record eq_refl
              {| fh_Path := ""; fh_Out := None; fh_Name := "app";
                 fh_Level := 0; fh_Formatter := DefaultFormatter;
                 fh_mu := unlocked |}
              text_format eq_refl eq_refl eq_refl ltac:(discriminate))
    as (w' & evs & R & T & _ & L & C).
  exists w', evs. split; [exact R|]. split; [exact T|]. split; [exact L|].
  intros wr. apply C. left. reflexivity.
Defined.
